(** * dspace-angular: object cache, community list flattening, find-all hrefs
      and researcher profile lookups

    A shallow embedding of the TypeScript sources:
    - [ObjectCache]: the TTL-gated lookup exercised by
      [object-cache.service.spec.ts];
    - [CommunityList]: [loadCommunities] / [getNextPageTopCommunities] of the
      community list service stub in [community-list.component.spec.ts];
    - [FindAllHref]: [DataService.getFindAllHref] as pinned down by
      [data.service.spec.ts];
    - [ResearcherProfile]: [delete] and [findByRelatedItem] of
      [researcher-profile.service.ts];
    - [ResearcherProfileOrcid], [ResearcherProfileExternal]: the ORCID,
      related-item, configuration and external-source methods of the same
      service.

    Conventions.  A JavaScript [number] holding a timestamp, a page index or a
    page size is an integer of [Z] (all values involved are far below 2^53, so
    [+], [*] and the comparisons are exact).  An rxjs [Observable] is the
    list of the values it has emitted so far, in order; the streams
    here are store selections and request responses, which stay open, so
    completion is not part of the picture.  [undefined] and [null] are
    [None]. *)

From stdpp Require Import gmap strings list pretty.
From Stdlib Require Import ZArith Lia.

Local Open Scope Z_scope.

(** The values an observable emits, oldest first. *)
Definition Observable (A : Type) : Type := list A.

(** [Observable.of(x)] / [observableOf(x)] *)
Definition observableOf {A : Type} (x : A) : Observable A := [x].

(** Modelled from the spec: [isEmpty] and [isNotEmpty] of
    [shared/empty.util.ts], which is not among the sources: [null],
    [undefined], the empty string and the empty array are empty; an object
    without a length or a size is not. *)
Class Emptiable (A : Type) : Type := isEmpty : A → bool.

Definition isNotEmpty {A : Type} `{Emptiable A} (obj : A) : bool :=
  negb (isEmpty obj).

#[export] Instance string_emptiable : Emptiable string :=
  λ s, (String.length s =? 0)%nat.

#[export] Instance array_emptiable {A : Type} : Emptiable (list A) :=
  λ l, (length l =? 0)%nat.

#[export] Instance nullable_emptiable {A : Type} `{Emptiable A}
    : Emptiable (option A) :=
  λ o, match o with None => true | Some obj => isEmpty obj end.

(* ===================================================================== *)
(** * Object cache *)
(* ===================================================================== *)

Module ObjectCache.

(** [objectToCache] of the test: an object with a [self] link and a
    resource [type]. *)
Record CacheableObject : Type := mkCacheableObject {
  self : string;
  type : string
}.

(** [cacheEntry] of the test. *)
Record ObjectCacheEntry : Type := mkObjectCacheEntry {
  data : CacheableObject;
  timeAdded : Z;
  msToLive : Z
}.

(** The part of the store the service selects from: entries by self link. *)
Abbreviation ObjectCacheState := (gmap string ObjectCacheEntry).

(** The two actions the service dispatches (test lines 38-50). *)
Inductive ObjectCacheAction : Type :=
| AddToObjectCacheAction (objectToCache : CacheableObject)
    (timeAdded msToLive : Z) (requestHref : string)
| RemoveFromObjectCacheAction (href : string).

(** Modelled from the spec: the reducer of [object-cache.reducer.ts], which is
    not among the sources.  The cache is a key→value store addressed by self
    link: ADD files the object under its own self link together with the
    time it was added and its time to live, REMOVE drops the entry of the
    given self link. *)
Definition objectCacheReducer (state : ObjectCacheState)
    (action : ObjectCacheAction) : ObjectCacheState :=
  match action with
  | AddToObjectCacheAction o t ms _ =>
      <[self o := mkObjectCacheEntry o t ms]> state
  | RemoveFromObjectCacheAction href => delete href state
  end.

(** Stores that arise from the empty store by dispatching actions. *)
Inductive reachable : ObjectCacheState → Prop :=
| reachable_init : reachable ∅
| reachable_dispatch state action :
    reachable state → reachable (objectCacheReducer state action).

(** Every entry is filed under the self link of the object it holds. *)
Definition keyed_by_self (state : ObjectCacheState) : Prop :=
  ∀ k e, state !! k = Some e → self (data e) = k.

(** Modelled from the spec: [ObjectCacheService.isValid] of
    [object-cache.service.ts], which is not among the sources.  An absent
    entry is not valid; a present one is stale once the current time is past
    [timeAdded + msToLive]. *)
Definition isValid (now : Z) (entry : option ObjectCacheEntry) : bool :=
  match entry with
  | None => false
  | Some e =>
      let timeOutdated := timeAdded e + msToLive e in
      let isOutDated := timeOutdated <? now in
      negb isOutDated
  end.

(** [store.select(selfLinkSelector(selfLink))]: the store answers with the
    entry filed under the self link, or [undefined]. *)
Definition select (state : ObjectCacheState) (selfLink : string)
    : Observable (option ObjectCacheEntry) :=
  observableOf (state !! selfLink).

(** Modelled from the spec: [ObjectCacheService.getBySelfLink] of
    [object-cache.service.ts], which is not among the sources: the selected
    entry is let through only while valid, and its object is emitted. *)
Definition getBySelfLink (state : ObjectCacheState) (now : Z)
    (selfLink : string) : Observable CacheableObject :=
  omap (fmap data) (List.filter (isValid now) (select state selfLink)).

(** Modelled from the spec: [ObjectCacheService.hasBySelfLink] of
    [object-cache.service.ts], which is not among the sources: [result]
    starts out [false] and the first selected entry sets it to its
    validity. *)
Definition hasBySelfLink (state : ObjectCacheState) (now : Z)
    (selfLink : string) : bool :=
  foldl (λ _ entry, isValid now entry) false (take 1 (select state selfLink)).

(** ** The fixtures of the test suite *)

Definition selfLink : string :=
  "https://rest.api/endpoint/1698f1d3-be98-4c51-9fd8-6bfedcbd59b7".
Definition objectToCache : CacheableObject := mkCacheableObject selfLink "item".
Definition cacheEntry (timestamp : Z) : ObjectCacheEntry :=
  mkObjectCacheEntry objectToCache timestamp 900000.
Definition invalidCacheEntry (timestamp : Z) : ObjectCacheEntry :=
  mkObjectCacheEntry objectToCache timestamp (-1).

End ObjectCache.

(* ===================================================================== *)
(** * Community list: paged flattening of the community tree *)
(* ===================================================================== *)

Module CommunityList.

(** The mock communities and collections of the test carry an id, a uuid and
    a name. *)
Record Community : Type := mkCommunity {
  community_id : string;
  community_uuid : string;
  community_name : string
}.

Record Collection : Type := mkCollection {
  collection_id : string;
  collection_uuid : string;
  collection_name : string
}.

(** What a row of the tree stands for: [Community | Collection |
    ShowMoreFlatNode]. *)
Inductive Payload : Type :=
| PayloadCommunity (c : Community)
| PayloadCollection (c : Collection)
| PayloadShowMore.

(** [c.id] and [c.name] for [c : Community | Collection]. *)
Definition dso_id (c : Community + Collection) : string :=
  match c with
  | inl c => community_id c
  | inr c => collection_id c
  end.

Definition dso_name (c : Community + Collection) : string :=
  match c with
  | inl c => community_name c
  | inr c => collection_name c
  end.

Definition dso_payload (c : Community + Collection) : Payload :=
  match c with
  | inl c => PayloadCommunity c
  | inr c => PayloadCollection c
  end.

(** Modelled from the spec: the [FlatNode] interface of
    [community-list-service.ts], which is not among the sources: one row of
    the flattened tree, with its nesting level, its parent row and its
    pagination state.  The two page counters are optional properties: a node
    fresh from [toFlatNode] has none. *)
#[warnings="-register-all"]
Inductive FlatNode : Type := mkFlatNode {
  isExpandable : bool;
  name : string;
  id : string;
  level : Z;
  isExpanded : bool;
  parent : option FlatNode;
  payload : Payload;
  isShowMoreNode : bool;
  currentCommunityPage : option Z;
  currentCollectionPage : option Z
}.

(** Modelled from the spec: [toFlatNode] of [community-list-service.ts], which
    is not among the sources: the row of a community or collection, at the
    given level and under the given parent. *)
Definition toFlatNode (c : Community + Collection) (isExpandable : bool)
    (level : Z) (isExpanded : bool) (parent : option FlatNode) : FlatNode :=
  {| isExpandable := isExpandable;
     name := dso_name c;
     id := dso_id c;
     level := level;
     isExpanded := isExpanded;
     parent := parent;
     payload := dso_payload c;
     isShowMoreNode := false;
     currentCommunityPage := None;
     currentCollectionPage := None |}.

(** Modelled from the spec: [showMoreFlatNode] of [community-list-service.ts],
    which is not among the sources: the row that offers the next page of a
    group of children. *)
Definition showMoreFlatNode (id : string) (level : Z)
    (parent : option FlatNode) : FlatNode :=
  {| isExpandable := false;
     name := "Show More Flatnode";
     id := id;
     level := level;
     isExpanded := false;
     parent := parent;
     payload := PayloadShowMore;
     isShowMoreNode := true;
     currentCommunityPage := None;
     currentCollectionPage := None |}.

(** Number of ancestors of a row. *)
Fixpoint depth (n : FlatNode) : Z :=
  match parent n with
  | None => 0
  | Some p => depth p + 1
  end.

(** An element of [mockTopCommunitiesWithChildrenArrays]. *)
Record TopCommunityWithArrays : Type := mkTopCommunityWithArrays {
  top_id : string;
  top_uuid : string;
  subcommunities : list Community;
  collections : list Collection
}.

(** The pagination state of the service stub. *)
Record CommunityListService : Type := mkCommunityListService {
  topPageSize : Z;
  topCurrentPage : Z;
  collectionPageSize : Z;
  subcommunityPageSize : Z
}.

(** The stub as the test sets it up in [beforeEach]. *)
Definition communityListServiceStub : CommunityListService :=
  {| topPageSize := 2; topCurrentPage := 1;
     collectionPageSize := 2; subcommunityPageSize := 2 |}.

(** [this.topCurrentPage++] *)
Definition getNextPageTopCommunities (this : CommunityListService)
    : CommunityListService :=
  {| topPageSize := topPageSize this;
     topCurrentPage := topCurrentPage this + 1;
     collectionPageSize := collectionPageSize this;
     subcommunityPageSize := subcommunityPageSize this |}.

(** ** JavaScript arithmetic and arrays, as far as the stub uses them *)

(** [pageSize * page] where [page] may be [undefined]: the product is then
    [NaN], here [None]. *)
Definition timesPage (pageSize : Z) (page : option Z) : option Z :=
  Z.mul pageSize <$> page.

(** [array.slice(0, end)]: a [NaN] end counts as 0, a negative end counts from
    the end of the array, and the result never leaves the array. *)
Definition slice0 {A : Type} (array : list A) (end_ : option Z) : list A :=
  let len := Z.of_nat (length array) in
  let relativeEnd := default 0 end_ in
  let final :=
    if relativeEnd <? 0 then Z.max (len + relativeEnd) 0
    else Z.min relativeEnd len in
  take (Z.to_nat final) array.

(** [array.length > n]: comparing with [NaN] is false. *)
Definition lengthGt {A : Type} (array : list A) (n : option Z) : bool :=
  match n with
  | Some n => n <? Z.of_nat (length array)
  | None => false
  end.

(** ** loadCommunities *)

Section LoadCommunities.

(** The two mock tables the stub closes over. *)
Variable mockTopFlatnodesUnexpanded : list FlatNode.
Variable mockTopCommunitiesWithChildrenArrays : list TopCommunityWithArrays.

Variable this : CommunityListService.

(** The body of [topFlatnodes.map((topNode) => ...)]: one step of the loop
    that grows [flatnodes]. *)
Definition expandTopNode (expandedNodes : list FlatNode)
    (flatnodes : list FlatNode) (topNode : FlatNode) : list FlatNode :=
  let flatnodes := flatnodes ++ [topNode] in
  let expandedParent :=
    List.find (λ expandedNode, String.eqb (id expandedNode) (id topNode))
      expandedNodes in
  match expandedParent with
  | None => flatnodes
  | Some expandedParent =>
    let matchingTopComWithArrays :=
      List.find (λ topcom, String.eqb (top_id topcom) (id topNode))
        mockTopCommunitiesWithChildrenArrays in
    match matchingTopComWithArrays with
    | None => flatnodes
    | Some matchingTopComWithArrays =>
      let possibleSubcoms := subcommunities matchingTopComWithArrays in
      let subComFlatnodes :=
        foldl (λ subComFlatnodes subcom,
                 subComFlatnodes ++
                 [toFlatNode (inl subcom) false
                    (level topNode + 1) false (Some topNode)])
          [] possibleSubcoms in
      let possibleColls := collections matchingTopComWithArrays in
      let collFlatnodes :=
        foldl (λ collFlatnodes coll,
                 collFlatnodes ++
                 [toFlatNode (inr coll) false
                    (level topNode + 1) false (Some topNode)])
          [] possibleColls in
      let flatnodes :=
        if isNotEmpty subComFlatnodes then
          let endSubComIndex :=
            timesPage (subcommunityPageSize this)
              (currentCommunityPage expandedParent) in
          let flatnodes := flatnodes ++ slice0 subComFlatnodes endSubComIndex in
          if lengthGt subComFlatnodes endSubComIndex then
            flatnodes ++
            [showMoreFlatNode "community" (level topNode + 1)
               (Some expandedParent)]
          else flatnodes
        else flatnodes in
      let flatnodes :=
        if isNotEmpty collFlatnodes then
          let endColIndex :=
            timesPage (collectionPageSize this)
              (currentCollectionPage expandedParent) in
          let flatnodes := flatnodes ++ slice0 collFlatnodes endColIndex in
          if lengthGt collFlatnodes endColIndex then
            flatnodes ++
            [showMoreFlatNode "collection" (level topNode + 1)
               (Some expandedParent)]
          else flatnodes
        else flatnodes in
      flatnodes
    end
  end.

(** [endPageIndex] and [showMoreTopComNode] as they stand after the first
    [if] of [loadCommunities]. *)
Definition topPageLimit : Z * bool :=
  let flatnodes := mockTopFlatnodesUnexpanded in
  let currentPage := topCurrentPage this in
  let elementsPerPage := topPageSize this in
  let endPageIndex := currentPage * elementsPerPage in
  if endPageIndex >=? Z.of_nat (length flatnodes)
  then (Z.of_nat (length flatnodes), false)
  else (endPageIndex, true).

(** [loadCommunities(expandedNodes)]; [expandedNodes] may be [null]. *)
Definition loadCommunities (expandedNodes : option (list FlatNode))
    : Observable (list FlatNode) :=
  let '(endPageIndex, showMoreTopComNode) := topPageLimit in
  if isEmpty expandedNodes then
    if showMoreTopComNode then
      observableOf
        (slice0 mockTopFlatnodesUnexpanded (Some endPageIndex) ++
         [showMoreFlatNode "community" 0 None])
    else
      observableOf (slice0 mockTopFlatnodesUnexpanded (Some endPageIndex))
  else
    let expandedNodes := default [] expandedNodes in
    let topFlatnodes := slice0 mockTopFlatnodesUnexpanded (Some endPageIndex) in
    let flatnodes := foldl (expandTopNode expandedNodes) [] topFlatnodes in
    let flatnodes :=
      if showMoreTopComNode then
        flatnodes ++ [showMoreFlatNode "community" 0 None]
      else flatnodes in
    observableOf flatnodes.

End LoadCommunities.

End CommunityList.

(** ** The flattened tree, row by row

    A description of the list [loadCommunities] builds, for comparison with
    the loop above: each top-community row is followed by the rows of its
    children when it is expanded. *)

Module CommunityListRows.
Import CommunityList.

Section Rows.

Variable mockTopCommunitiesWithChildrenArrays : list TopCommunityWithArrays.
Variable this : CommunityListService.
Variable expandedNodes : list FlatNode.

(** The expanded node that stands for a top node: the first one with its id. *)
Definition expandedParentOf (topNode : FlatNode) : option FlatNode :=
  List.find (λ expandedNode, String.eqb (id expandedNode) (id topNode))
    expandedNodes.

(** The children arrays of a top node: the first table entry with its id. *)
Definition childrenArraysOf (topNode : FlatNode)
    : option TopCommunityWithArrays :=
  List.find (λ topcom, String.eqb (top_id topcom) (id topNode))
    mockTopCommunitiesWithChildrenArrays.

(** All subcommunity rows, resp. collection rows, below a top node. *)
Definition subcommunityRows (topNode : FlatNode)
    (children : TopCommunityWithArrays) : list FlatNode :=
  (λ subcom, toFlatNode (inl subcom) false (level topNode + 1) false
               (Some topNode)) <$> subcommunities children.

Definition collectionRows (topNode : FlatNode)
    (children : TopCommunityWithArrays) : list FlatNode :=
  (λ coll, toFlatNode (inr coll) false (level topNode + 1) false
             (Some topNode)) <$> collections children.

(** A group of child rows cut at its page limit, with a show-more row behind
    it when the limit leaves some of them out. *)
Definition pagedGroup (kind : string) (rows : list FlatNode)
    (limit : option Z) (topNode expandedParent : FlatNode) : list FlatNode :=
  if isNotEmpty rows then
    slice0 rows limit ++
    (if lengthGt rows limit
     then [showMoreFlatNode kind (level topNode + 1) (Some expandedParent)]
     else [])
  else [].

(** The rows below a top node: none unless it is expanded and has an entry in
    the children table. *)
Definition childRows (topNode : FlatNode) : list FlatNode :=
  match expandedParentOf topNode, childrenArraysOf topNode with
  | Some expandedParent, Some children =>
      pagedGroup "community" (subcommunityRows topNode children)
        (timesPage (subcommunityPageSize this)
           (currentCommunityPage expandedParent))
        topNode expandedParent ++
      pagedGroup "collection" (collectionRows topNode children)
        (timesPage (collectionPageSize this)
           (currentCollectionPage expandedParent))
        topNode expandedParent
  | _, _ => []
  end.

(** A top node with the rows below it. *)
Definition rowBlock (topNode : FlatNode) : list FlatNode :=
  topNode :: childRows topNode.

End Rows.

(** The page of top nodes a call works on: the mock top nodes up to
    [endPageIndex]. *)
Definition topPage (mockTopFlatnodesUnexpanded : list FlatNode)
    (this : CommunityListService) : list FlatNode :=
  slice0 mockTopFlatnodesUnexpanded
    (Some (topPageLimit mockTopFlatnodesUnexpanded this).1).

(** The top-level show-more row, present when [present] holds. *)
Definition topShowMore (present : bool) : list FlatNode :=
  if present then [showMoreFlatNode "community" 0 None] else [].

End CommunityListRows.

(** ** The fixtures of the community list test *)

Module CommunityListFixture.
Import CommunityList.

Definition mockSubcommunities1Page1 : list Community :=
  [ mkCommunity "ce64f48e-2c9b-411a-ac36-ee429c0e6a88"
      "ce64f48e-2c9b-411a-ac36-ee429c0e6a88" "subcommunity1";
    mkCommunity "59ee713b-ee53-4220-8c3f-9860dc84fe33"
      "59ee713b-ee53-4220-8c3f-9860dc84fe33" "subcommunity2" ].

Definition mockCollectionsPage1 : list Collection :=
  [ mkCollection "e9dbf393-7127-415f-8919-55be34a6e9ed"
      "e9dbf393-7127-415f-8919-55be34a6e9ed" "collection1";
    mkCollection "59da2ff0-9bf4-45bf-88be-e35abd33f304"
      "59da2ff0-9bf4-45bf-88be-e35abd33f304" "collection2" ].

Definition mockCollectionsPage2 : list Collection :=
  [ mkCollection "a5159760-f362-4659-9e81-e3253ad91ede"
      "a5159760-f362-4659-9e81-e3253ad91ede" "collection3";
    mkCollection "a392e16b-fcf2-400a-9a88-53ef7ecbdcd3"
      "a392e16b-fcf2-400a-9a88-53ef7ecbdcd3" "collection4" ].

Definition mockTopCommunitiesWithChildrenArrays
    : list TopCommunityWithArrays :=
  [ mkTopCommunityWithArrays "7669c72a-3f2a-451f-a3b9-9210e7a4c02f"
      "7669c72a-3f2a-451f-a3b9-9210e7a4c02f" mockSubcommunities1Page1 [];
    mkTopCommunityWithArrays "9076bd16-e69a-48d6-9e41-0238cb40d863"
      "9076bd16-e69a-48d6-9e41-0238cb40d863" []
      (mockCollectionsPage1 ++ mockCollectionsPage2);
    mkTopCommunityWithArrays "efbf25e1-2d8c-4c28-8f3e-2e04c215be24"
      "efbf25e1-2d8c-4c28-8f3e-2e04c215be24" [] [] ].

Definition community1 : FlatNode :=
  toFlatNode (inl (mkCommunity "7669c72a-3f2a-451f-a3b9-9210e7a4c02f"
                     "7669c72a-3f2a-451f-a3b9-9210e7a4c02f" "community1"))
    true 0 false None.
Definition community2 : FlatNode :=
  toFlatNode (inl (mkCommunity "9076bd16-e69a-48d6-9e41-0238cb40d863"
                     "9076bd16-e69a-48d6-9e41-0238cb40d863" "community2"))
    true 0 false None.
Definition community3 : FlatNode :=
  toFlatNode (inl (mkCommunity "efbf25e1-2d8c-4c28-8f3e-2e04c215be24"
                     "efbf25e1-2d8c-4c28-8f3e-2e04c215be24" "community3"))
    false 0 false None.

Definition mockTopFlatnodesUnexpanded : list FlatNode :=
  [community1; community2; community3].

(** A node after the tree control expanded it: marked expanded, both page
    counters on their first page. *)
Definition expanded (node : FlatNode) : FlatNode :=
  {| isExpandable := isExpandable node;
     name := name node;
     id := id node;
     level := level node;
     isExpanded := true;
     parent := parent node;
     payload := payload node;
     isShowMoreNode := isShowMoreNode node;
     currentCommunityPage := Some 1;
     currentCollectionPage := Some 1 |}.

(** The rows the test counts: those that are not show-more rows, and those
    that are. *)
Definition contentRows (rows : list FlatNode) : list FlatNode :=
  List.filter (λ n, negb (isShowMoreNode n)) rows.
Definition showMoreRows (rows : list FlatNode) : list FlatNode :=
  List.filter isShowMoreNode rows.

End CommunityListFixture.

(* ===================================================================== *)
(** * Find-all hrefs *)
(* ===================================================================== *)

Module FindAllHref.

(** [new SortOptions(field, direction)]; the direction is kept as the text it
    prints as inside a template string. *)
Record SortOptions : Type := mkSortOptions {
  field : string;
  direction : string
}.

(** [FindAllOptions]: every property is optional. *)
Record FindAllOptions : Type := mkFindAllOptions {
  scopeID : option string;
  currentPage : option Z;
  elementsPerPage : option Z;
  sort : option SortOptions;
  startsWith : option string
}.

(** [options = {}] *)
Definition noOptions : FindAllOptions :=
  {| scopeID := None; currentPage := None; elementsPerPage := None;
     sort := None; startsWith := None |}.

(** A call either throws an [Error] or returns. *)
Inductive Outcome (A : Type) : Type :=
| Throws (message : string)
| Returns (value : A).
Arguments Throws {A} message.
Arguments Returns {A} value.

(** [args.join('&')] *)
Definition join (separator : string) (args : list string) : string :=
  String.concat separator args.

Section GetFindAllHref.

(** [getScopedEndpoint] is abstract in [DataService]; the [TestService] of the
    test throws from it. *)
Variable getScopedEndpoint : string → Outcome (Observable string).

(** Modelled from the spec: [DataService.getFindAllHref] of
    [data.service.ts], which is not among the sources; the behaviour is the
    one its test suite lays down.  The href starts from the scoped endpoint
    when a scope is given and from [endpoint] otherwise; the options that have
    a value contribute [page] (zero-indexed), [size], [sort] and [startsWith],
    in that order; when there is at least one they are joined by [&] and put
    behind a [?]. *)
Definition getFindAllHref (endpoint : string) (options : FindAllOptions)
    : Outcome (Observable string) :=
  let result :=
    match scopeID options with
    | Some scope => getScopedEndpoint scope
    | None => Returns (observableOf endpoint)
    end in
  let args : list string := [] in
  let args :=
    match currentPage options with
    | Some currentPage => args ++ ["page=" +:+ pretty (currentPage - 1)]
    | None => args
    end in
  let args :=
    match elementsPerPage options with
    | Some elementsPerPage => args ++ ["size=" +:+ pretty elementsPerPage]
    | None => args
    end in
  let args :=
    match sort options with
    | Some sort => args ++ ["sort=" +:+ field sort +:+ "," +:+ direction sort]
    | None => args
    end in
  let args :=
    match startsWith options with
    | Some startsWith => args ++ ["startsWith=" +:+ startsWith]
    | None => args
    end in
  match result with
  | Throws message => Throws message
  | Returns result =>
      if isNotEmpty args then
        Returns ((λ href, href +:+ "?" +:+ join "&" args) <$> result)
      else Returns result
  end.

End GetFindAllHref.

(** ** The fixtures of the data service test *)

Definition endpoint : string := "https://rest.api/core".

(** The options of the test "should include all provided options in href". *)
Definition allOptions : FindAllOptions :=
  {| scopeID := None; currentPage := Some 6; elementsPerPage := Some 10;
     sort := Some (mkSortOptions "field1" "DESC"); startsWith := Some "ab" |}.

Definition testService_getScopedEndpoint (scope : string)
    : Outcome (Observable string) :=
  Throws "getScopedEndpoint is abstract in DataService".

End FindAllHref.

(* ===================================================================== *)
(** * Researcher profiles *)
(* ===================================================================== *)

Module ResearcherProfile.

(** Modelled from the spec: a metadata value of an item
    ([metadata.models.ts] is not among the sources), as far as the service
    reads it: its authority key may be absent. *)
Record MetadataValue : Type := mkMetadataValue {
  value : string;
  authority : option string
}.

(** Modelled from the spec: an [Item] ([item.model.ts] is not among the
    sources), as far as the service reads it: [firstMetadata(key)] answers
    with the first value under the key, or [undefined]. *)
Record Item : Type := mkItem {
  firstMetadata : string → option MetadataValue
}.

Record ResearcherProfile : Type := mkResearcherProfile {
  id : string
}.

Inductive NoContent : Type := noContent.

(** Modelled from the spec: [RemoteData] ([remote-data.ts] is not among the
    sources), as far as the service reads it: the flags a response answers
    with, and its payload. *)
Record RemoteData (T : Type) : Type := mkRemoteData {
  hasCompleted : bool;
  hasFailed : bool;
  isSuccess : bool;
  payload : option T
}.
Arguments mkRemoteData {T} hasCompleted hasFailed isSuccess payload.
Arguments hasCompleted {T} r.
Arguments hasFailed {T} r.
Arguments isSuccess {T} r.
Arguments payload {T} r.

(** Modelled from the spec: [createFailedRemoteDataObject] and
    [createFailedRemoteDataObject$] (here with a prime for the dollar) of
    [shared/remote-data.utils.ts], which is not among the sources: a response
    that has completed and failed, and the observable of just that
    response. *)
Definition createFailedRemoteDataObject {T : Type} : RemoteData T :=
  {| hasCompleted := true; hasFailed := true; isSuccess := false;
     payload := None |}.

Definition createFailedRemoteDataObject' {T : Type}
    : Observable (RemoteData T) :=
  observableOf createFailedRemoteDataObject.

(** Modelled from the spec: [getAllCompletedRemoteData] and
    [getFirstCompletedRemoteData] of [shared/operators.ts], which is not
    among the sources: the responses that have completed, resp. the first of
    them. *)
Definition getAllCompletedRemoteData {T : Type}
    (source : Observable (RemoteData T)) : Observable (RemoteData T) :=
  List.filter hasCompleted source.

Definition getFirstCompletedRemoteData {T : Type}
    (source : Observable (RemoteData T)) : Observable (RemoteData T) :=
  option_list (List.find hasCompleted source).

(** The name of a link to resolve along with a request. *)
Definition FollowLinkConfig : Type := string.

(** The requests the service hands to its private [DataService]. *)
Inductive Request : Type :=
| FindByIdRequest (uuid : string)
    (useCachedVersionIfAvailable reRequestOnStale : bool)
    (linksToFollow : list FollowLinkConfig)
| DeleteRequest (objectId : string).

(** The private [ResearcherProfileServiceImpl] the service delegates to: what
    each request is answered with over time. *)
Class DataService : Type := {
  dataService_findById :
    string → bool → bool → list FollowLinkConfig →
    Observable (RemoteData ResearcherProfile);
  dataService_delete : string → Observable (RemoteData NoContent)
}.

(** A computation together with the requests it issued, oldest first. *)
Definition Issuing (A : Type) : Type := list Request * A.

#[export] Instance issuing_ret : MRet Issuing := λ A x, ([], x).

#[export] Instance issuing_bind : MBind Issuing := λ A B k m,
  let '(issued, x) := m in
  let '(issued', y) := k x in
  (issued ++ issued', y).

Section Service.

Context `{dataService : DataService}.

(** [this.dataService.findById(...)] and [this.dataService.delete(...)] *)
Definition issue_findById (uuid : string)
    (useCachedVersionIfAvailable reRequestOnStale : bool)
    (linksToFollow : list FollowLinkConfig)
    : Issuing (Observable (RemoteData ResearcherProfile)) :=
  ([FindByIdRequest uuid useCachedVersionIfAvailable reRequestOnStale
      linksToFollow],
   dataService_findById uuid useCachedVersionIfAvailable reRequestOnStale
     linksToFollow).

Definition issue_delete (objectId : string)
    : Issuing (Observable (RemoteData NoContent)) :=
  ([DeleteRequest objectId], dataService_delete objectId).

(** [findById(uuid, useCachedVersionIfAvailable = true, reRequestOnStale =
    true, ...linksToFollow)] *)
Definition findById (uuid : string)
    (useCachedVersionIfAvailable reRequestOnStale : bool)
    (linksToFollow : list FollowLinkConfig)
    : Issuing (Observable (RemoteData ResearcherProfile)) :=
  response ← issue_findById uuid useCachedVersionIfAvailable reRequestOnStale
               linksToFollow;
  mret (getAllCompletedRemoteData response).

(** [delete(researcherProfile)] *)
Definition delete (researcherProfile : ResearcherProfile)
    : Issuing (Observable bool) :=
  response ← issue_delete (id researcherProfile);
  mret (isSuccess <$> getFirstCompletedRemoteData response).

(** [findByRelatedItem(item)] *)
Definition findByRelatedItem (item : Item)
    : Issuing (Observable (RemoteData ResearcherProfile)) :=
  let profileId := firstMetadata item "dspace.object.owner" ≫= authority in
  if isEmpty profileId then
    mret createFailedRemoteDataObject'
  else
    findById (default "" profileId) true true [].

End Service.

(** ** Sample data *)

(** A backend whose delete request is pending first and then succeeds, and
    whose lookups succeed at once. *)
Definition sampleDataService : DataService :=
  {| dataService_findById uuid _ _ _ :=
       [mkRemoteData true false true (Some (mkResearcherProfile uuid))];
     dataService_delete _ :=
       [mkRemoteData false false false None;
        mkRemoteData true false true (Some noContent)] |}.

Definition ownedItem : Item :=
  {| firstMetadata key :=
       if String.eqb key "dspace.object.owner"
       then Some (mkMetadataValue "Doe, Jane"
                    (Some "1698f1d3-be98-4c51-9fd8-6bfedcbd59b7"))
       else None |}.

Definition unownedItem : Item := {| firstMetadata key := None |}.

End ResearcherProfile.

(** ** Reading the flattened tree *)

Module CommunityListView.
Import CommunityList.

(** A row at the root of the tree: one without a parent. *)
Definition isRootRow (n : FlatNode) : bool :=
  match parent n with
  | None => true
  | Some _ => false
  end.

End CommunityListView.

(* ===================================================================== *)
(** * Researcher profiles: ORCID, related item, configuration *)
(* ===================================================================== *)

Module ResearcherProfileOrcid.
Import FindAllHref ResearcherProfile.
Import Stdlib.Strings.Ascii.

(** The JSON patch operations the service builds ([fast-json-patch]). *)
Inductive Operation : Type :=
| AddOperation (path : string) (value : string)
| RemoveOperation (path : string)
| ReplaceOperation (path : string) (value : bool).

(** Modelled from the spec: [ConfigurationProperty]
    ([configuration-property.model.ts] is not among the sources), as far as
    the service reads it: the values of the property. *)
Record ConfigurationProperty : Type := mkConfigurationProperty {
  values : list string
}.

(** The researcher profile as [findRelatedItemId] reads it: the item it may
    carry already and the href of its item link. *)
Record LinkedResearcherProfile : Type := mkLinkedResearcherProfile {
  profile : ResearcherProfile;
  item : option (Observable (RemoteData Item));
  links_item_href : string
}.

(** An [Item] is an object without a length or a size: never empty. *)
#[export] Instance item_emptiable : Emptiable Item := λ _, false.

(** Getters of the imported models and built-ins of the language that the
    service calls and the records above leave out. *)
Class Environment : Type := {
  (** [RemoteData.hasSucceeded] *)
  hasSucceeded : ∀ {T : Type}, RemoteData T → bool;
  (** [Item.id], [Item.hasMetadata], [Item.allMetadataValues] *)
  item_id : Item → string;
  hasMetadata : Item → string → bool;
  allMetadataValues : Item → string → list string;
  (** [String.prototype.toLowerCase], [encodeURIComponent] *)
  toLowerCase : string → string;
  encodeURIComponent : string → string;
  (** [new URLCombiner(a, b).toString()] *)
  urlCombiner : string → string → string
}.

(** The services the researcher profile service is constructed with: what
    each of them answers over time. *)
Class Services : Type := {
  profiles :: DataService;
  (** the private data service asked for the profile of an [undefined] uuid *)
  dataService_findById_undefined : Observable (RemoteData ResearcherProfile);
  dataService_patch :
    option ResearcherProfile → list Operation →
    Observable (RemoteData ResearcherProfile);
  configurationService_findByPropertyName :
    string → Observable (RemoteData ConfigurationProperty);
  itemService_findByHref : string → bool → Observable (RemoteData Item)
}.

(** The calls the service makes on them. *)
Inductive Call : Type :=
| ProfileCall (request : Request)
| FindByIdUndefinedCall
    (useCachedVersionIfAvailable reRequestOnStale : bool)
    (linksToFollow : list FollowLinkConfig)
| PatchCall (object : option ResearcherProfile) (operations : list Operation)
| FindByPropertyNameCall (name : string)
| FindByHrefCall (href : string) (useCachedVersionIfAvailable : bool).

(** A computation together with the calls it made, oldest first. *)
Definition Calling (A : Type) : Type := list Call * A.

#[export] Instance calling_ret : MRet Calling := λ A x, ([], x).

#[export] Instance calling_bind : MBind Calling := λ A B k m,
  let '(called, x) := m in
  let '(called', y) := k x in
  (called ++ called', y).

(** A method of the settled part, with its requests as calls. *)
Definition ofProfiles {A : Type} (m : Issuing A) : Calling A :=
  (ProfileCall <$> m.1, m.2).

(** [switchMap(project)] behind a source that emits at most once (here always
    [getFirstCompletedRemoteData]): the projected stream of that one value. *)
Definition switchMap {A B : Type} (project : A → Calling (Observable B))
    (source : Observable A) : Calling (Observable B) :=
  match source with
  | [] => mret []
  | x :: _ => project x
  end.

(** [combineLatest([a$, b$, c$])] of sources that emit at most once each: one
    triple, once all three have emitted. *)
Definition combineLatest {A B C : Type} (a' : Observable A)
    (b' : Observable B) (c' : Observable C) : Observable (A * B * C) :=
  a ← a'; b ← b'; c ← c'; [(a, b, c)].

(** [array.includes(x)] on strings *)
Definition includes (array : list string) (x : string) : bool :=
  existsb (String.eqb x) array.

(** [url.split('?')[0]]: the text before the first question mark. *)
Fixpoint beforeQuestionMark (url : string) : string :=
  match url with
  | EmptyString => EmptyString
  | String c rest =>
      if Ascii.eqb c "?"%char then EmptyString
      else String c (beforeQuestionMark rest)
  end.

(** [x + '...'] for an [x] that may be [undefined]. *)
Definition text (x : option string) : string := default "undefined" x.

Section Service.

Context `{environment : Environment} `{services : Services}.

(** Modelled from the spec: [getFirstSucceededRemoteDataPayload] of
    [shared/operators.ts], which is not among the sources: the payload of the
    first response that has succeeded. *)
Definition getFirstSucceededRemoteDataPayload {T : Type}
    (source : Observable (RemoteData T)) : Observable (option T) :=
  payload <$> option_list (List.find hasSucceeded source).

(** [this.findById(uuid)] where [uuid] may be [undefined] at run time. *)
Definition findByIdOf (uuid : option string)
    : Calling (Observable (RemoteData ResearcherProfile)) :=
  match uuid with
  | Some uuid => ofProfiles (findById uuid true true [])
  | None =>
      ([FindByIdUndefinedCall true true []],
       getAllCompletedRemoteData dataService_findById_undefined)
  end.

(** [this.dataService.patch(object, operations)] *)
Definition call_patch (object : option ResearcherProfile)
    (operations : list Operation)
    : Calling (Observable (RemoteData ResearcherProfile)) :=
  ([PatchCall object operations], dataService_patch object operations).

(** [this.configurationService.findByPropertyName(name)] *)
Definition call_findByPropertyName (name : string)
    : Calling (Observable (RemoteData ConfigurationProperty)) :=
  ([FindByPropertyNameCall name], configurationService_findByPropertyName name).

(** [this.itemService.findByHref(href, useCachedVersionIfAvailable)] *)
Definition call_findByHref (href : string) (useCachedVersionIfAvailable : bool)
    : Calling (Observable (RemoteData Item)) :=
  ([FindByHrefCall href useCachedVersionIfAvailable],
   itemService_findByHref href useCachedVersionIfAvailable).

(** [findRelatedItemId(researcherProfile)] *)
Definition findRelatedItemId (researcherProfile : LinkedResearcherProfile)
    : Calling (Observable (option string)) :=
  relatedItem' ←
    match item researcherProfile with
    | Some item' => mret item'
    | None => call_findByHref (links_item_href researcherProfile) false
    end;
  mret ((λ itemRD : RemoteData Item,
           if hasSucceeded itemRD && bool_decide (is_Some (payload itemRD))
           then item_id <$> payload itemRD
           else None)
        <$> getFirstCompletedRemoteData relatedItem').

(** [setVisibility(researcherProfile, visible)] *)
Definition setVisibility (researcherProfile : ResearcherProfile)
    (visible : bool) : Calling (Observable (RemoteData ResearcherProfile)) :=
  let replaceOperation := ReplaceOperation "/visible" visible in
  call_patch (Some researcherProfile) [replaceOperation].

(** [isLinkedToOrcid(item)] *)
Definition isLinkedToOrcid (item : Item) : bool :=
  hasMetadata item "dspace.orcid.authenticated".

(** [getOrcidDisconnectionAllowedUsersConfiguration()] *)
Definition getOrcidDisconnectionAllowedUsersConfiguration
    : Calling (Observable (RemoteData ConfigurationProperty)) :=
  response ← call_findByPropertyName "orcid.disconnection.allowed-users";
  mret (getFirstCompletedRemoteData response).

(** [propertyRD.hasSucceeded &&
     propertyRD.payload.values.map((value) => value.toLowerCase()).includes(mode)];
    reading the values of an [undefined] payload is a [TypeError]. *)
Definition allowsMode (mode : string)
    (propertyRD : RemoteData ConfigurationProperty) : Outcome bool :=
  if hasSucceeded propertyRD then
    match payload propertyRD with
    | Some property => Returns (includes (toLowerCase <$> values property) mode)
    | None => Throws "TypeError"
    end
  else Returns false.

(** [onlyAdminCanDisconnectProfileFromOrcid()]; an emitted [Throws] is the
    error the stream ends with. *)
Definition onlyAdminCanDisconnectProfileFromOrcid
    : Calling (Observable (Outcome bool)) :=
  propertyRD' ← getOrcidDisconnectionAllowedUsersConfiguration;
  mret (allowsMode "only_admin" <$> propertyRD').

(** [ownerCanDisconnectProfileFromOrcid()] *)
Definition ownerCanDisconnectProfileFromOrcid
    : Calling (Observable (Outcome bool)) :=
  propertyRD' ← getOrcidDisconnectionAllowedUsersConfiguration;
  mret (allowsMode "admin_and_owner" <$> propertyRD').

(** [updateByOrcidOperations(researcherProfile, operations)]; the callers
    hand it a payload, which may be [undefined]. *)
Definition updateByOrcidOperations (researcherProfile : option ResearcherProfile)
    (operations : list Operation)
    : Calling (Observable (RemoteData ResearcherProfile)) :=
  call_patch researcherProfile operations.

(** [linkOrcidByItem(person, code)]; reading the authority of a metadata value
    that is [undefined] is a [TypeError]. *)
Definition linkOrcidByItem (person : Item) (code : string)
    : Outcome (Calling (Observable (RemoteData ResearcherProfile))) :=
  let operations := [AddOperation "/orcid" code] in
  match firstMetadata person "dspace.object.owner" with
  | None => Throws "TypeError"
  | Some owner =>
      Returns
        (response ← findByIdOf (authority owner);
         switchMap (λ profileRD : RemoteData ResearcherProfile,
                      updateByOrcidOperations (payload profileRD) operations)
           (getFirstCompletedRemoteData response))
  end.

(** [unlinkOrcidByItem(person)] *)
Definition unlinkOrcidByItem (person : Item)
    : Outcome (Calling (Observable (RemoteData ResearcherProfile))) :=
  let operations := [RemoveOperation "/orcid"] in
  match firstMetadata person "dspace.object.owner" with
  | None => Throws "TypeError"
  | Some owner =>
      Returns
        (response ← findByIdOf (authority owner);
         switchMap (λ profileRD : RemoteData ResearcherProfile,
                      updateByOrcidOperations (payload profileRD) operations)
           (getFirstCompletedRemoteData response))
  end.

(** The callback of [getOrcidAuthorizeUrl]: the url from the three
    configuration properties; [origin] is [this._window.nativeWindow.origin]
    and [routerUrl] is [this.router.url].  (The two [console.log] calls are
    left out.) *)
Definition authorizeUrlOf (origin routerUrl : string)
    (properties : option ConfigurationProperty * option ConfigurationProperty
                  * option ConfigurationProperty) : Outcome string :=
  let '(authorizeUrl, clientId, scopes) := properties in
  let redirectUri :=
    urlCombiner origin (encodeURIComponent (beforeQuestionMark routerUrl)) in
  match authorizeUrl, clientId, scopes with
  | Some authorizeUrl, Some clientId, Some scopes =>
      Returns
        (text (head (values authorizeUrl)) +:+ "?client_id=" +:+
         text (head (values clientId)) +:+ "&redirect_uri=" +:+
         redirectUri +:+ "&response_type=code&scope=" +:+
         join " " (values scopes))
  | _, _, _ => Throws "TypeError"
  end.

(** [getOrcidAuthorizeUrl(profile)] *)
Definition getOrcidAuthorizeUrl (origin routerUrl : string) (profile : Item)
    : Calling (Observable (Outcome string)) :=
  authorizeUrl' ← call_findByPropertyName "orcid.authorize-url";
  clientId' ← call_findByPropertyName "orcid.application-client-id";
  scopes' ← call_findByPropertyName "orcid.scope";
  mret (authorizeUrlOf origin routerUrl
        <$> combineLatest
              (getFirstSucceededRemoteDataPayload authorizeUrl')
              (getFirstSucceededRemoteDataPayload clientId')
              (getFirstSucceededRemoteDataPayload scopes')).

(** [getOrcidAuthorizationScopesByItem(item)]; [item] may be [null]. *)
Definition getOrcidAuthorizationScopesByItem (item : option Item)
    : list string :=
  match item with
  | Some item' =>
      if isNotEmpty item then allMetadataValues item' "dspace.orcid.scope"
      else []
  | None => []
  end.

(** [getOrcidAuthorizationScopes()] *)
Definition getOrcidAuthorizationScopes
    : Calling (Observable (Outcome (list string))) :=
  response ← call_findByPropertyName "orcid.scope";
  mret ((λ propertyRD : RemoteData ConfigurationProperty,
           if hasSucceeded propertyRD then
             match payload propertyRD with
             | Some property => Returns (values property)
             | None => Throws "TypeError"
             end
           else Returns [])
        <$> getFirstCompletedRemoteData response).

End Service.

(** ** Sample data *)

Definition sampleEnvironment : Environment :=
  {| hasSucceeded T rd := isSuccess rd;
     item_id _ := "item-1";
     hasMetadata _ _ := false;
     allMetadataValues _ _ := [];
     toLowerCase s := s;
     encodeURIComponent s := s;
     urlCombiner a b := a +:+ "/" +:+ b |}.

(** Services whose profile lookup fails, whose patch succeeds and whose
    configuration knows the three ORCID properties only. *)
Definition failedLookup : DataService :=
  {| dataService_findById _ _ _ _ :=
       [mkRemoteData false false false None;
        mkRemoteData true true false None];
     dataService_delete _ := [] |}.

Definition sampleServices : Services :=
  {| profiles := failedLookup;
     dataService_findById_undefined := [mkRemoteData true true false None];
     dataService_patch object _ := [mkRemoteData true false true object];
     configurationService_findByPropertyName name :=
       if String.eqb name "orcid.authorize-url" then
         [mkRemoteData true false true
            (Some (mkConfigurationProperty ["https://orcid.org/oauth/authorize"]))]
       else if String.eqb name "orcid.application-client-id" then
         [mkRemoteData true false true
            (Some (mkConfigurationProperty ["APP-1"]))]
       else if String.eqb name "orcid.scope" then
         [mkRemoteData true false true
            (Some (mkConfigurationProperty ["/authenticate"; "/read-limited"]))]
       else [mkRemoteData true true false None];
     itemService_findByHref _ _ := [mkRemoteData true true false None] |}.

End ResearcherProfileOrcid.

(** ** Creating a profile from an external source *)

Module ResearcherProfileExternal.
Import ResearcherProfile.

(** [new PostRequest(uuid, href, body, options)], with the headers of the
    options. *)
Record PostRequest : Type := mkPostRequest {
  uuid : string;
  href : string;
  body : string;
  headers : list (string * string)
}.

(** The request, HAL and remote-data-build services, and the helpers of the
    private data service, that [createFromExternalSource] calls. *)
Class RequestServices : Type := {
  (** the id [requestService.generateRequestId()] hands out *)
  generateRequestId : string;
  (** [dataService.getLinkPath()] *)
  getLinkPath : string;
  (** [halService.getEndpoint(linkPath)]: the hrefs it emits, some of them
      possibly without a value *)
  halService_getEndpoint : string → Observable (option string);
  (** [dataService.buildHrefWithParams(href, params, ...linksToFollow)] *)
  buildHrefWithParams : string → list string → list FollowLinkConfig → string;
  (** [rdbService.buildFromRequestUUID(requestId, ...linksToFollow)] *)
  buildFromRequestUUID :
    string → list FollowLinkConfig → Observable (RemoteData ResearcherProfile)
}.

(** [followLink('item')] *)
Definition followLink (linkName : string) : FollowLinkConfig := linkName.

(** [find((href) => hasValue(href))]: the first emitted href that is neither
    [null] nor [undefined]. *)
Definition findHasValue (source : Observable (option string))
    : Observable string :=
  option_list (mjoin (List.find (λ href, bool_decide (is_Some href)) source)).

Section Service.

Context `{requestServices : RequestServices}.

(** [createFromExternalSource(sourceUri)]: the requests handed to
    [requestService.send], and the observable that is returned. *)
Definition createFromExternalSource (sourceUri : string)
    : list PostRequest * Observable (RemoteData ResearcherProfile) :=
  let headers := [("Content-Type", "text/uri-list")] in
  let requestId := generateRequestId in
  let href' := halService_getEndpoint getLinkPath in
  let sent :=
    (λ endpoint, mkPostRequest requestId endpoint sourceUri headers)
    <$> ((λ href, buildHrefWithParams href [] [followLink "item"])
         <$> findHasValue href') in
  (sent, buildFromRequestUUID requestId [followLink "item"]).

End Service.

(** Sample services: the endpoint is unknown at first. *)
Definition sampleRequestServices : RequestServices :=
  {| generateRequestId := "request-1";
     getLinkPath := "profiles";
     halService_getEndpoint linkPath :=
       [None; Some ("https://rest.api/" +:+ linkPath);
        Some "https://rest.api/other"];
     buildHrefWithParams href _ links :=
       href +:+ "?embed=" +:+ String.concat "," links;
     buildFromRequestUUID requestId _ := [] |}.

End ResearcherProfileExternal.

(* ===================================================================== *)
(** * Theorems: object cache *)
(* ===================================================================== *)

Module ObjectCacheFacts.
Import ObjectCache.

Lemma isValid_Some_iff now e :
  isValid now (Some e) = true ↔ now ≤ timeAdded e + msToLive e.
Proof. unfold isValid; cbn. rewrite negb_true_iff, Z.ltb_ge. done. Qed.

Lemma isValid_stale now e :
  timeAdded e + msToLive e < now → isValid now (Some e) = false.
Proof. intros H. unfold isValid; cbn. rewrite negb_false_iff. lia. Qed.

(** The test expectations of [object-cache.service.spec.ts]: the clock is
    frozen at the time the entries were added. *)
Example test_getBySelfLink_valid timestamp :
  getBySelfLink {[selfLink := cacheEntry timestamp]} timestamp selfLink
  = [objectToCache].
Proof.
  unfold getBySelfLink, select, observableOf. rewrite lookup_singleton_eq.
  cbn -[isValid]. rewrite (proj2 (isValid_Some_iff _ _)); cbn; [done | lia].
Qed.

Example test_getBySelfLink_invalid timestamp :
  getBySelfLink {[selfLink := invalidCacheEntry timestamp]} timestamp selfLink
  = [].
Proof.
  unfold getBySelfLink, select, observableOf. rewrite lookup_singleton_eq.
  cbn -[isValid]. rewrite isValid_stale; cbn; [done | lia].
Qed.

Example test_has_valid timestamp :
  hasBySelfLink {[selfLink := cacheEntry timestamp]} timestamp selfLink = true.
Proof.
  unfold hasBySelfLink, select, observableOf. rewrite lookup_singleton_eq.
  cbn -[isValid]. apply isValid_Some_iff; cbn; lia.
Qed.

Example test_has_absent timestamp :
  hasBySelfLink ∅ timestamp selfLink = false.
Proof. reflexivity. Qed.

Example test_has_invalid timestamp :
  hasBySelfLink {[selfLink := invalidCacheEntry timestamp]} timestamp selfLink
  = false.
Proof.
  unfold hasBySelfLink, select, observableOf. rewrite lookup_singleton_eq.
  cbn -[isValid]. apply isValid_stale; cbn; lia.
Qed.

(** Dispatching actions keeps every entry under its object's self link. *)
Lemma objectCacheReducer_keyed_by_self state action :
  keyed_by_self state → keyed_by_self (objectCacheReducer state action).
Proof.
  intros Hk k e. destruct action as [o t ms href | href]; cbn.
  - destruct (decide (self o = k)) as [<- | Hne].
    + rewrite lookup_insert_eq. by intros [= <-].
    + rewrite lookup_insert_ne by done. apply Hk.
  - destruct (decide (href = k)) as [<- | Hne].
    + by rewrite lookup_delete_eq.
    + rewrite lookup_delete_ne by done. apply Hk.
Qed.

Lemma reachable_keyed_by_self state :
  reachable state → keyed_by_self state.
Proof.
  induction 1 as [| state action _ IH].
  - intros k e. by rewrite lookup_empty.
  - by apply objectCacheReducer_keyed_by_self.
Qed.

(** C1.  An entry whose time to live has been exceeded (the current time is
    past [timeAdded + msToLive]) is never handed out: [getBySelfLink] emits
    nothing and [hasBySelfLink] answers [false]. *)
Theorem stale_entry_never_returned
    (state : ObjectCacheState) (now : Z) (link : string) (e : ObjectCacheEntry) :
  state !! link = Some e →
  timeAdded e + msToLive e < now →
  getBySelfLink state now link = [] ∧ hasBySelfLink state now link = false.
Proof.
  intros Hsel Hstale.
  unfold getBySelfLink, hasBySelfLink, select, observableOf.
  rewrite Hsel. cbn -[isValid].
  by rewrite (isValid_stale _ _ Hstale).
Qed.

Lemma stale_entry_never_returned_witness :
  let state : ObjectCacheState := {[selfLink := invalidCacheEntry 1000]} in
  state !! selfLink = Some (invalidCacheEntry 1000) ∧
  timeAdded (invalidCacheEntry 1000) + msToLive (invalidCacheEntry 1000) < 1000 ∧
  getBySelfLink state 1000 selfLink = [] ∧
  hasBySelfLink state 1000 selfLink = false.
Proof.
  cbn zeta.
  assert (Hsel : ({[selfLink := invalidCacheEntry 1000]} : ObjectCacheState)
                   !! selfLink = Some (invalidCacheEntry 1000))
    by apply lookup_singleton_eq.
  assert (Hlt : timeAdded (invalidCacheEntry 1000)
                + msToLive (invalidCacheEntry 1000) < 1000) by (cbn; lia).
  split; [exact Hsel |]. split; [exact Hlt |].
  exact (stale_entry_never_returned _ 1000 selfLink _ Hsel Hlt).
Defined.

(** C2.  In a store reached by dispatching ADD and REMOVE actions, an entry
    that is present and still within its time to live is handed out:
    [getBySelfLink] emits exactly its object, whose self link is the
    requested one, and [hasBySelfLink] answers [true]; when nothing is
    cached for the self link, [hasBySelfLink] answers [false]. *)
Theorem valid_entry_returned
    (state : ObjectCacheState) (now : Z) (link : string) :
  reachable state →
  (∀ e, state !! link = Some e →
        now ≤ timeAdded e + msToLive e →
        getBySelfLink state now link = [data e] ∧
        self (data e) = link ∧
        hasBySelfLink state now link = true) ∧
  (state !! link = None → hasBySelfLink state now link = false).
Proof.
  intros Hreach. split.
  - intros e Hsel Hlive.
    apply isValid_Some_iff in Hlive.
    unfold getBySelfLink, hasBySelfLink, select, observableOf.
    rewrite Hsel. cbn -[isValid]. rewrite Hlive. cbn.
    split; [done |]. split; [| done].
    by apply (reachable_keyed_by_self state Hreach).
  - intros Hnone. unfold hasBySelfLink, select, observableOf.
    by rewrite Hnone.
Qed.

Lemma valid_entry_returned_witness :
  let state := objectCacheReducer ∅
                 (AddToObjectCacheAction objectToCache 1000 900000 selfLink) in
  reachable state ∧
  getBySelfLink state 1000 selfLink = [objectToCache] ∧
  hasBySelfLink state 1000 selfLink = true ∧
  hasBySelfLink state 1000 "https://rest.api/endpoint/other" = false.
Proof.
  cbn zeta.
  assert (Hreach : reachable (objectCacheReducer ∅
            (AddToObjectCacheAction objectToCache 1000 900000 selfLink)))
    by (apply reachable_dispatch, reachable_init).
  split; [exact Hreach |].
  destruct (valid_entry_returned _ 1000 selfLink Hreach) as [Hsome _].
  destruct (valid_entry_returned _ 1000 "https://rest.api/endpoint/other" Hreach)
    as [_ Hnone].
  destruct (Hsome (mkObjectCacheEntry objectToCache 1000 900000))
    as (Hget & _ & Hhas).
  - cbn. apply lookup_insert_eq.
  - cbn. lia.
  - split; [exact Hget |]. split; [exact Hhas |].
    apply Hnone. cbn. rewrite lookup_insert_ne; [apply lookup_empty | done].
Defined.

End ObjectCacheFacts.

(* ===================================================================== *)
(** * Theorems: community list *)
(* ===================================================================== *)

Module CommunityListFacts.
Import CommunityList CommunityListRows CommunityListFixture.

(** ** Arrays *)

Lemma foldl_snoc {A B : Type} (f : B → A) (l : list B) (acc : list A) :
  foldl (λ acc x, acc ++ [f x]) acc l = acc ++ (f <$> l).
Proof.
  revert acc. induction l as [| x l IH]; intros acc; cbn.
  - by rewrite app_nil_r.
  - rewrite IH. by rewrite <- app_assoc.
Qed.

Lemma foldl_blocks {A B : Type} (step : list A → B → list A)
    (block : B → list A) (l : list B) (acc : list A) :
  (∀ acc x, step acc x = acc ++ block x) →
  foldl step acc l = acc ++ (l ≫= block).
Proof.
  intros Hstep. revert acc. induction l as [| x l IH]; intros acc; cbn.
  - by rewrite app_nil_r.
  - rewrite IH, Hstep. by rewrite <- app_assoc.
Qed.

Lemma slice0_nonneg {A : Type} (l : list A) (n : Z) :
  0 ≤ n → slice0 l (Some n) = take (Z.to_nat n) l.
Proof.
  intros Hn. unfold slice0; cbn.
  destruct (Z.ltb_spec n 0) as [? | _]; [lia |].
  destruct (Z.min_spec n (Z.of_nat (length l))) as [[_ ->] | [Hle ->]];
    [done |].
  rewrite Nat2Z.id, firstn_all. symmetry. apply take_ge. lia.
Qed.

Lemma slice0_length {A : Type} (l : list A) :
  slice0 l (Some (Z.of_nat (length l))) = l.
Proof. rewrite slice0_nonneg by lia. rewrite Nat2Z.id. apply firstn_all. Qed.

(** ** The loop of [loadCommunities] builds the rows block by block *)

Section Blocks.

Variable tops : list FlatNode.
Variable coms : list TopCommunityWithArrays.
Variable this : CommunityListService.

Lemma expandTopNode_rowBlock exps flatnodes topNode :
  expandTopNode coms this exps flatnodes topNode
  = flatnodes ++ rowBlock coms this exps topNode.
Proof.
  unfold expandTopNode, rowBlock, childRows, expandedParentOf, childrenArraysOf.
  destruct (List.find _ exps) as [expandedParent |]; [| done].
  destruct (List.find _ coms) as [children |]; [| done].
  rewrite !foldl_snoc. cbn [app].
  unfold pagedGroup, subcommunityRows, collectionRows.
  repeat match goal with
         | |- context [if ?b then _ else _] => destruct b
         end;
    rewrite ?app_nil_r, <- ?app_assoc; cbn [app]; reflexivity.
Qed.

Lemma rowBlock_unexpanded topNode : rowBlock coms this [] topNode = [topNode].
Proof. reflexivity. Qed.

Lemma bind_singleton (l : list FlatNode) : l ≫= (λ t, [t]) = l.
Proof. induction l as [| x l IH]; cbn; [done | by rewrite IH]. Qed.

Lemma loadCommunities_rowBlocks (expandedNodes : option (list FlatNode)) :
  loadCommunities tops coms this expandedNodes
  = observableOf
      ((topPage tops this ≫= rowBlock coms this (default [] expandedNodes))
       ++ topShowMore (topPageLimit tops this).2).
Proof.
  unfold loadCommunities, topPage, topShowMore.
  destruct (topPageLimit tops this) as [endPageIndex showMoreTopComNode].
  cbn [fst snd].
  destruct (isEmpty expandedNodes) eqn:Hempty.
  - assert (default [] expandedNodes = []) as ->.
    { destruct expandedNodes as [[| e exps] |]; done. }
    rewrite (list_bind_ext _ (λ t, [t]) _ _ rowBlock_unexpanded eq_refl).
    rewrite bind_singleton.
    destruct showMoreTopComNode; [done | by rewrite app_nil_r].
  - rewrite (foldl_blocks _ (rowBlock coms this (default [] expandedNodes)))
      by apply expandTopNode_rowBlock.
    cbn [app]. destruct showMoreTopComNode; [done | by rewrite app_nil_r].
Qed.

Lemma topPageLimit_nonneg :
  0 ≤ topCurrentPage this * topPageSize this →
  topPage tops this = take (Z.to_nat (topCurrentPage this * topPageSize this)) tops ∧
  (topPageLimit tops this).2
  = (topCurrentPage this * topPageSize this <? Z.of_nat (length tops)).
Proof.
  intros Hnn. unfold topPage, topPageLimit. rewrite Z.geb_leb.
  destruct (Z.leb_spec (Z.of_nat (length tops))
              (topCurrentPage this * topPageSize this)) as [Hle | Hlt];
    cbn [fst snd].
  - rewrite slice0_length. split.
    + symmetry. apply take_ge. lia.
    + symmetry. apply Z.ltb_ge. lia.
  - rewrite slice0_nonneg by done. split; [done |].
    symmetry. apply Z.ltb_lt. lia.
Qed.

End Blocks.

Lemma pagedGroup_nonneg kind rows limit topNode expandedParent :
  0 ≤ limit →
  pagedGroup kind rows (Some limit) topNode expandedParent
  = take (Z.to_nat limit) rows ++
    (if limit <? Z.of_nat (length rows)
     then [showMoreFlatNode kind (level topNode + 1) (Some expandedParent)]
     else []).
Proof.
  intros Hnn. unfold pagedGroup. destruct rows as [| r rows].
  - cbn. rewrite take_nil. change (Z.of_nat 0) with 0.
    destruct (Z.ltb_spec limit 0); [lia | done].
  - cbn [isNotEmpty isEmpty array_emptiable length Nat.eqb negb lengthGt].
    by rewrite slice0_nonneg.
Qed.

Lemma elem_of_pagedGroup n kind rows limit topNode expandedParent :
  n ∈ pagedGroup kind rows limit topNode expandedParent →
  isShowMoreNode n = false → n ∈ rows.
Proof.
  unfold pagedGroup. destruct (isNotEmpty rows); [| by intros ?%elem_of_nil].
  intros [Hin | Hin]%elem_of_app Hrow.
  - unfold slice0 in Hin. by eapply subseteq_take.
  - destruct (lengthGt rows limit); [| by apply elem_of_nil in Hin].
    apply list_elem_of_singleton in Hin. by subst n.
Qed.

(** The rows below a top node that are not show-more rows sit one level
    deeper and point back at the top node. *)
Lemma elem_of_childRows coms this exps topNode n :
  n ∈ childRows coms this exps topNode →
  isShowMoreNode n = false →
  ∃ expandedParent,
    expandedParentOf exps topNode = Some expandedParent ∧
    level n = level topNode + 1 ∧ parent n = Some topNode.
Proof.
  unfold childRows.
  destruct (expandedParentOf exps topNode) as [expandedParent |];
    [| by intros ?%elem_of_nil].
  destruct (childrenArraysOf coms topNode) as [children |];
    [| by intros ?%elem_of_nil].
  intros [Hin | Hin]%elem_of_app Hrow;
    apply elem_of_pagedGroup in Hin; try done;
    apply list_elem_of_fmap in Hin as (c & -> & _);
    by exists expandedParent.
Qed.

Lemma elem_of_loadCommunities tops coms this expandedNodes rows n :
  rows ∈ loadCommunities tops coms this expandedNodes →
  n ∈ rows →
  isShowMoreNode n = false →
  ∃ topNode,
    topNode ∈ topPage tops this ∧
    (n = topNode ∨ n ∈ childRows coms this (default [] expandedNodes) topNode).
Proof.
  rewrite loadCommunities_rowBlocks. unfold observableOf.
  intros ->%list_elem_of_singleton [Hin | Hin]%elem_of_app Hrow.
  - apply list_elem_of_bind in Hin as (topNode & Hin & Htop).
    exists topNode. split; [done |].
    unfold rowBlock in Hin. apply elem_of_cons in Hin. done.
  - unfold topShowMore in Hin.
    destruct (topPageLimit tops this).2; [| by apply elem_of_nil in Hin].
    apply list_elem_of_singleton in Hin. by subst n.
Qed.

Lemma topPage_prefix tops this : topPage tops this `prefix_of` tops.
Proof. unfold topPage, slice0. apply prefix_take. Qed.

Lemma sublist_bind_rowBlock coms this exps (page : list FlatNode) :
  page `sublist_of` (page ≫= rowBlock coms this exps).
Proof.
  induction page as [| t page IH]; cbn; [done |].
  apply sublist_skip. by apply sublist_inserts_l.
Qed.

(** ** The test expectations of [community-list.component.spec.ts] *)

Example test_initial_load :
  loadCommunities mockTopFlatnodesUnexpanded
    mockTopCommunitiesWithChildrenArrays communityListServiceStub None
  = observableOf [community1; community2; showMoreFlatNode "community" 0 None].
Proof. reflexivity. Qed.

Example test_show_more_clicked :
  loadCommunities mockTopFlatnodesUnexpanded
    mockTopCommunitiesWithChildrenArrays
    (getNextPageTopCommunities communityListServiceStub) (Some [])
  = observableOf [community1; community2; community3].
Proof. reflexivity. Qed.

Example test_first_node_expanded :
  ∃ rows,
    loadCommunities [expanded community1; community2; community3]
      mockTopCommunitiesWithChildrenArrays communityListServiceStub
      (Some [expanded community1])
    = observableOf rows ∧
    name <$> contentRows rows
    = ["community1"; "subcommunity1"; "subcommunity2"; "community2"] ∧
    length (showMoreRows rows) = 1%nat.
Proof. eexists. split; [reflexivity |]. split; reflexivity. Qed.

Example test_second_node_expanded :
  ∃ rows,
    loadCommunities [community1; expanded community2; community3]
      mockTopCommunitiesWithChildrenArrays communityListServiceStub
      (Some [expanded community2])
    = observableOf rows ∧
    name <$> contentRows rows
    = ["community1"; "community2"; "collection1"; "collection2"] ∧
    length (showMoreRows rows) = 2%nat.
Proof. eexists. split; [reflexivity |]. split; reflexivity. Qed.

(** A negative limit makes [slice] count from the end of the array: the page
    limits of the claims below are therefore taken not to be negative. *)
Example negative_page_limit :
  loadCommunities mockTopFlatnodesUnexpanded
    mockTopCommunitiesWithChildrenArrays
    {| topPageSize := 1; topCurrentPage := -1;
       collectionPageSize := 2; subcommunityPageSize := 2 |} None
  = observableOf [community1; community2; showMoreFlatNode "community" 0 None].
Proof. reflexivity. Qed.

(** A node without page counters shows none of its children: the limit is
    [NaN]. *)
Example expanded_without_page_counters :
  loadCommunities mockTopFlatnodesUnexpanded
    mockTopCommunitiesWithChildrenArrays communityListServiceStub
    (Some [community1])
  = observableOf [community1; community2; showMoreFlatNode "community" 0 None].
Proof. reflexivity. Qed.

(** ** The claims about [loadCommunities] *)

(** C3.  With no expanded nodes ([null] or an empty array) and a page limit
    [topCurrentPage * topPageSize] that is not negative, [loadCommunities]
    emits the first [topCurrentPage * topPageSize] top nodes, all of them
    when there are no more than that, followed by one show-more row exactly
    when the limit cuts some top nodes off. *)
Theorem loadCommunities_unexpanded_page
    (tops : list FlatNode) (coms : list TopCommunityWithArrays)
    (this : CommunityListService) (expandedNodes : option (list FlatNode)) :
  expandedNodes = None ∨ expandedNodes = Some [] →
  0 ≤ topCurrentPage this * topPageSize this →
  let limit := topCurrentPage this * topPageSize this in
  loadCommunities tops coms this expandedNodes
  = observableOf
      (take (Z.to_nat limit) tops ++
       (if limit <? Z.of_nat (length tops)
        then [showMoreFlatNode "community" 0 None] else [])) ∧
  (Z.of_nat (length tops) ≤ limit → take (Z.to_nat limit) tops = tops).
Proof.
  intros Hexp Hnn limit. split.
  - rewrite loadCommunities_rowBlocks.
    destruct (topPageLimit_nonneg tops this Hnn) as [-> ->].
    assert (default [] expandedNodes = []) as -> by (by destruct Hexp as [-> | ->]).
    rewrite (list_bind_ext _ (λ t, [t]) _ _ (rowBlock_unexpanded coms this) eq_refl).
    by rewrite bind_singleton.
  - intros Hall. apply take_ge. lia.
Qed.

Lemma loadCommunities_unexpanded_page_witness :
  loadCommunities mockTopFlatnodesUnexpanded
    mockTopCommunitiesWithChildrenArrays communityListServiceStub None
  = observableOf
      (take 2 mockTopFlatnodesUnexpanded ++
       [showMoreFlatNode "community" 0 None]).
Proof.
  refine (proj1 (loadCommunities_unexpanded_page mockTopFlatnodesUnexpanded
                   mockTopCommunitiesWithChildrenArrays
                   communityListServiceStub None _ _)).
  - left. reflexivity.
  - cbn. lia.
Defined.

(** C4.  For a top node of the current page that is expanded (its expanded
    node carries both page counters, and neither page limit is negative),
    [loadCommunities] puts right behind it the first
    [subcommunityPageSize * currentCommunityPage] of its subcommunity rows,
    then the first [collectionPageSize * currentCollectionPage] of its
    collection rows, each group followed by a show-more row exactly when the
    group has more rows than its limit. *)
Theorem expanded_parent_children_paged
    (tops : list FlatNode) (coms : list TopCommunityWithArrays)
    (this : CommunityListService) (exps : list FlatNode)
    (before after : list FlatNode) (topNode expandedParent : FlatNode)
    (children : TopCommunityWithArrays) (communityPage collectionPage : Z) :
  topPage tops this = before ++ topNode :: after →
  expandedParentOf exps topNode = Some expandedParent →
  childrenArraysOf coms topNode = Some children →
  currentCommunityPage expandedParent = Some communityPage →
  currentCollectionPage expandedParent = Some collectionPage →
  0 ≤ subcommunityPageSize this * communityPage →
  0 ≤ collectionPageSize this * collectionPage →
  let subLimit := subcommunityPageSize this * communityPage in
  let collLimit := collectionPageSize this * collectionPage in
  let subRows := subcommunityRows topNode children in
  let collRows := collectionRows topNode children in
  loadCommunities tops coms this (Some exps)
  = observableOf
      ((before ≫= rowBlock coms this exps) ++
       [topNode] ++
       take (Z.to_nat subLimit) subRows ++
       (if subLimit <? Z.of_nat (length subRows)
        then [showMoreFlatNode "community" (level topNode + 1)
                (Some expandedParent)]
        else []) ++
       take (Z.to_nat collLimit) collRows ++
       (if collLimit <? Z.of_nat (length collRows)
        then [showMoreFlatNode "collection" (level topNode + 1)
                (Some expandedParent)]
        else []) ++
       (after ≫= rowBlock coms this exps) ++
       topShowMore (topPageLimit tops this).2).
Proof.
  intros Hpage Hexp Hchildren Hcom Hcoll Hsub Hcol subLimit collLimit
    subRows collRows.
  rewrite loadCommunities_rowBlocks, Hpage.
  change (default [] (Some exps)) with exps.
  rewrite bind_app, bind_cons.
  assert (Hblock : rowBlock coms this exps topNode
                   = topNode :: pagedGroup "community" subRows (Some subLimit)
                                  topNode expandedParent
                             ++ pagedGroup "collection" collRows
                                  (Some collLimit) topNode expandedParent).
  { unfold rowBlock, childRows. by rewrite Hexp, Hchildren, Hcom, Hcoll. }
  rewrite Hblock, !pagedGroup_nonneg by done.
  f_equal. repeat (rewrite <- app_assoc || rewrite <- app_comm_cons).
  reflexivity.
Qed.

Lemma expanded_parent_children_paged_witness :
  ∃ rows,
    loadCommunities [community1; expanded community2; community3]
      mockTopCommunitiesWithChildrenArrays communityListServiceStub
      (Some [expanded community2])
    = observableOf rows ∧
    name <$> rows
    = ["community1"; "community2"; "collection1"; "collection2";
       "Show More Flatnode"; "Show More Flatnode"].
Proof.
  eexists. split.
  - refine (expanded_parent_children_paged
              [community1; expanded community2; community3]
              mockTopCommunitiesWithChildrenArrays communityListServiceStub
              [expanded community2] [community1] [] (expanded community2)
              (expanded community2)
              (mkTopCommunityWithArrays "9076bd16-e69a-48d6-9e41-0238cb40d863"
                 "9076bd16-e69a-48d6-9e41-0238cb40d863" []
                 (mockCollectionsPage1 ++ mockCollectionsPage2))
              1 1 _ _ _ _ _ _ _); try reflexivity; cbn; lia.
  - reflexivity.
Defined.

(** C5.  A row of the flattened tree that is neither a show-more row nor a
    top node of the page is a child of an expanded top node of the page: its
    level is that node's level plus one and its parent is that node.  Hence,
    when the level of every top node is its depth, so is the level of every
    such row of the output. *)
Theorem child_rows_level_and_parent
    (tops : list FlatNode) (coms : list TopCommunityWithArrays)
    (this : CommunityListService) (expandedNodes : option (list FlatNode))
    (rows : list FlatNode) (n : FlatNode) :
  rows ∈ loadCommunities tops coms this expandedNodes →
  n ∈ rows →
  isShowMoreNode n = false →
  (n ∈ topPage tops this ∨
   ∃ topNode expandedParent,
     topNode ∈ topPage tops this ∧
     expandedParentOf (default [] expandedNodes) topNode = Some expandedParent ∧
     level n = level topNode + 1 ∧
     parent n = Some topNode) ∧
  ((∀ topNode, topNode ∈ tops → level topNode = depth topNode) →
   level n = depth n).
Proof.
  intros Hrows Hn Hrow.
  destruct (elem_of_loadCommunities _ _ _ _ _ _ Hrows Hn Hrow)
    as (topNode & Htop & [-> | Hchild]).
  - split; [by left |]. intros Htops. apply Htops.
    by eapply elem_of_prefix; [| apply topPage_prefix].
  - destruct (elem_of_childRows _ _ _ _ _ Hchild Hrow)
      as (expandedParent & Hexp & Hlevel & Hparent).
    split; [right; by exists topNode, expandedParent |].
    intros Htops. rewrite Hlevel.
    destruct n; cbn in Hparent |- *; subst. cbn.
    rewrite <- Htops; [done |].
    by eapply elem_of_prefix; [| apply topPage_prefix].
Qed.

Lemma child_rows_level_and_parent_witness :
  let subcommunity1 :=
    toFlatNode (inl (mkCommunity "ce64f48e-2c9b-411a-ac36-ee429c0e6a88"
                       "ce64f48e-2c9b-411a-ac36-ee429c0e6a88" "subcommunity1"))
      false 1 false (Some (expanded community1)) in
  level subcommunity1 = depth subcommunity1 ∧
  parent subcommunity1 = Some (expanded community1).
Proof.
  intros subcommunity1.
  pose (tops := [expanded community1; community2; community3]).
  pose (rows := [expanded community1; subcommunity1;
                 toFlatNode (inl (mkCommunity
                   "59ee713b-ee53-4220-8c3f-9860dc84fe33"
                   "59ee713b-ee53-4220-8c3f-9860dc84fe33" "subcommunity2"))
                   false 1 false (Some (expanded community1));
                 community2; showMoreFlatNode "community" 0 None]).
  assert (Hrows : rows ∈ loadCommunities tops
                    mockTopCommunitiesWithChildrenArrays
                    communityListServiceStub (Some [expanded community1]))
    by (apply list_elem_of_singleton; reflexivity).
  assert (Hn : subcommunity1 ∈ rows) by (apply list_elem_of_further, list_elem_of_here).
  destruct (child_rows_level_and_parent tops _ _ _ rows subcommunity1
              Hrows Hn eq_refl) as [_ Hdepth].
  split; [| reflexivity].
  apply Hdepth. intros topNode Htop.
  repeat (apply elem_of_cons in Htop as [-> | Htop]; [reflexivity |]).
  by apply elem_of_nil in Htop.
Defined.

Lemma pagedGroup_slice0 kind rows limit topNode expandedParent :
  pagedGroup kind rows limit topNode expandedParent
  = slice0 rows limit ++
    (if isNotEmpty rows && lengthGt rows limit
     then [showMoreFlatNode kind (level topNode + 1) (Some expandedParent)]
     else []).
Proof.
  unfold pagedGroup. destruct rows as [| r rows]; [| done].
  unfold slice0. by rewrite take_nil.
Qed.

(** C6.  The list [loadCommunities] emits for a list of expanded nodes is the
    page of top nodes, in their original order, each followed by the rows
    below it, with the top-level show-more row, when there is one, at the very
    end.  A top node that is not expanded has no rows below it; an expanded
    one is followed by its page-limited subcommunity rows and then by its
    page-limited collection rows, each group with its show-more row behind it
    when it has one. *)
Theorem loadCommunities_expanded_order
    (tops : list FlatNode) (coms : list TopCommunityWithArrays)
    (this : CommunityListService) (exps : list FlatNode) :
  let page := topPage tops this in
  let rows :=
    (page ≫= rowBlock coms this exps) ++
    topShowMore (topPageLimit tops this).2 in
  loadCommunities tops coms this (Some exps) = observableOf rows ∧
  page `prefix_of` tops ∧
  page `sublist_of` rows ∧
  (∀ topNode,
     expandedParentOf exps topNode = None →
     rowBlock coms this exps topNode = [topNode]) ∧
  (∀ topNode expandedParent children,
     expandedParentOf exps topNode = Some expandedParent →
     childrenArraysOf coms topNode = Some children →
     let subRows := subcommunityRows topNode children in
     let collRows := collectionRows topNode children in
     let subLimit :=
       timesPage (subcommunityPageSize this)
         (currentCommunityPage expandedParent) in
     let collLimit :=
       timesPage (collectionPageSize this)
         (currentCollectionPage expandedParent) in
     rowBlock coms this exps topNode
     = [topNode] ++
       slice0 subRows subLimit ++
       (if isNotEmpty subRows && lengthGt subRows subLimit
        then [showMoreFlatNode "community" (level topNode + 1)
                (Some expandedParent)]
        else []) ++
       slice0 collRows collLimit ++
       (if isNotEmpty collRows && lengthGt collRows collLimit
        then [showMoreFlatNode "collection" (level topNode + 1)
                (Some expandedParent)]
        else [])) ∧
  ((topPageLimit tops this).2 = true →
   last rows = Some (showMoreFlatNode "community" 0 None)).
Proof.
  intros page rows. repeat split.
  - apply loadCommunities_rowBlocks.
  - apply topPage_prefix.
  - apply sublist_inserts_r, sublist_bind_rowBlock.
  - intros topNode Hexp. unfold rowBlock, childRows. by rewrite Hexp.
  - intros topNode expandedParent children Hexp Hchildren
      subRows collRows subLimit collLimit.
    unfold rowBlock, childRows. rewrite Hexp, Hchildren.
    rewrite !pagedGroup_slice0. cbn [app]. by rewrite <- !app_assoc.
  - intros Hmore. unfold rows, topShowMore. rewrite Hmore. apply last_snoc.
Qed.

Lemma loadCommunities_expanded_order_witness :
  let tops := [community1; expanded community2; community3] in
  let exps := [expanded community2] in
  ∃ rows,
    loadCommunities tops mockTopCommunitiesWithChildrenArrays
      communityListServiceStub (Some exps) = observableOf rows ∧
    rowBlock mockTopCommunitiesWithChildrenArrays communityListServiceStub
      exps community1 = [community1] ∧
    name <$> rowBlock mockTopCommunitiesWithChildrenArrays
               communityListServiceStub exps (expanded community2)
    = ["community2"; "collection1"; "collection2"; "Show More Flatnode"] ∧
    last rows = Some (showMoreFlatNode "community" 0 None).
Proof.
  intros tops exps.
  destruct (loadCommunities_expanded_order tops
              mockTopCommunitiesWithChildrenArrays communityListServiceStub
              exps) as (Hrows & _ & _ & Hplain & Hexpanded & Hlast).
  eexists. split; [exact Hrows |].
  split; [apply Hplain; reflexivity |].
  split.
  - rewrite (Hexpanded (expanded community2) (expanded community2)
               (mkTopCommunityWithArrays "9076bd16-e69a-48d6-9e41-0238cb40d863"
                  "9076bd16-e69a-48d6-9e41-0238cb40d863" []
                  (mockCollectionsPage1 ++ mockCollectionsPage2))
               eq_refl eq_refl).
    reflexivity.
  - apply Hlast. reflexivity.
Defined.

(** C7.  [getNextPageTopCommunities] moves the top-level page counter up by
    one and leaves the page sizes alone.  From the first page (and a page
    size that is not negative) the tree then shows the first
    [min (2 * topPageSize) total] top nodes, and the top-level show-more row
    is gone exactly when these are all of them. *)
Theorem getNextPageTopCommunities_shows_next_page
    (tops : list FlatNode) (coms : list TopCommunityWithArrays)
    (this : CommunityListService) (expandedNodes : option (list FlatNode)) :
  let next := getNextPageTopCommunities this in
  let total := Z.of_nat (length tops) in
  let shown := Z.min (2 * topPageSize this) total in
  topCurrentPage next = topCurrentPage this + 1 ∧
  topPageSize next = topPageSize this ∧
  collectionPageSize next = collectionPageSize this ∧
  subcommunityPageSize next = subcommunityPageSize this ∧
  (topCurrentPage this = 1 →
   0 ≤ topPageSize this →
   topPage tops next = take (Z.to_nat shown) tops ∧
   Z.of_nat (length (topPage tops next)) = shown ∧
   loadCommunities tops coms next expandedNodes
   = observableOf
       ((take (Z.to_nat shown) tops
           ≫= rowBlock coms next (default [] expandedNodes)) ++
        topShowMore (negb (shown =? total))) ∧
   (default [] expandedNodes = [] →
    loadCommunities tops coms next expandedNodes
    = observableOf
        (take (Z.to_nat shown) tops ++ topShowMore (negb (shown =? total))))).
Proof.
  intros next total shown.
  do 4 (split; [reflexivity |]).
  intros Hfirst Hsize.
  assert (Hlimit : topCurrentPage next * topPageSize next
                   = 2 * topPageSize this)
    by (cbn; rewrite Hfirst; lia).
  assert (Hnn : 0 ≤ topCurrentPage next * topPageSize next) by lia.
  destruct (topPageLimit_nonneg tops next Hnn) as [Hpage Hmore].
  rewrite Hlimit in Hpage, Hmore.
  assert (Htake : take (Z.to_nat (2 * topPageSize this)) tops
                  = take (Z.to_nat shown) tops).
  { unfold shown, total.
    destruct (Z.min_spec (2 * topPageSize this) (Z.of_nat (length tops)))
      as [[_ ->] | [Hle ->]]; [done |].
    rewrite Nat2Z.id, firstn_all. apply take_ge. lia. }
  assert (Hflag : (2 * topPageSize this <? Z.of_nat (length tops))
                  = negb (shown =? total)).
  { unfold shown, total.
    destruct (Z.ltb_spec (2 * topPageSize this) (Z.of_nat (length tops))).
    - rewrite Z.min_l by lia. symmetry. apply negb_true_iff, Z.eqb_neq. lia.
    - rewrite Z.min_r by lia. symmetry. apply negb_false_iff, Z.eqb_eq. lia. }
  split; [by rewrite Hpage |].
  split; [rewrite Hpage, Htake, length_take; unfold shown, total; lia |].
  split; [by rewrite loadCommunities_rowBlocks, Hpage, Hmore, Htake, Hflag |].
  intros Hnone.
  rewrite loadCommunities_rowBlocks, Hpage, Hmore, Htake, Hflag, Hnone.
  rewrite (list_bind_ext _ (λ t, [t]) _ _ (rowBlock_unexpanded coms next)
             eq_refl).
  by rewrite bind_singleton.
Qed.

Lemma getNextPageTopCommunities_shows_next_page_witness :
  let next := getNextPageTopCommunities communityListServiceStub in
  topCurrentPage next = 2 ∧
  loadCommunities mockTopFlatnodesUnexpanded
    mockTopCommunitiesWithChildrenArrays next None
  = observableOf [community1; community2; community3].
Proof.
  intros next.
  destruct (getNextPageTopCommunities_shows_next_page
              mockTopFlatnodesUnexpanded mockTopCommunitiesWithChildrenArrays
              communityListServiceStub None)
    as (Hpage & _ & _ & _ & Hshown).
  split; [exact Hpage |].
  destruct Hshown as (_ & _ & _ & Hrows); [reflexivity | cbn; lia |].
  exact (Hrows eq_refl).
Defined.

End CommunityListFacts.

(* ===================================================================== *)
(** * Theorems: find-all hrefs *)
(* ===================================================================== *)

Module FindAllHrefFacts.
Import FindAllHref.

(** ** The test expectations of [data.service.spec.ts] *)

Example test_endpoint_only :
  getFindAllHref testService_getScopedEndpoint endpoint noOptions
  = Returns [endpoint].
Proof. reflexivity. Qed.

Example test_scopeID_throws :
  getFindAllHref testService_getScopedEndpoint endpoint
    {| scopeID := Some "somevalue"; currentPage := None;
       elementsPerPage := None; sort := None; startsWith := None |}
  = Throws "getScopedEndpoint is abstract in DataService".
Proof. reflexivity. Qed.

Example test_currentPage :
  getFindAllHref testService_getScopedEndpoint endpoint
    {| scopeID := None; currentPage := Some 2;
       elementsPerPage := None; sort := None; startsWith := None |}
  = Returns ["https://rest.api/core?page=1"].
Proof. reflexivity. Qed.

Example test_elementsPerPage :
  getFindAllHref testService_getScopedEndpoint endpoint
    {| scopeID := None; currentPage := None;
       elementsPerPage := Some 5; sort := None; startsWith := None |}
  = Returns ["https://rest.api/core?size=5"].
Proof. reflexivity. Qed.

Example test_sort :
  getFindAllHref testService_getScopedEndpoint endpoint
    {| scopeID := None; currentPage := None; elementsPerPage := None;
       sort := Some (mkSortOptions "field1" "ASC"); startsWith := None |}
  = Returns ["https://rest.api/core?sort=field1,ASC"].
Proof. reflexivity. Qed.

Example test_startsWith :
  getFindAllHref testService_getScopedEndpoint endpoint
    {| scopeID := None; currentPage := None; elementsPerPage := None;
       sort := None; startsWith := Some "ab" |}
  = Returns ["https://rest.api/core?startsWith=ab"].
Proof. reflexivity. Qed.

Example test_all_options :
  getFindAllHref testService_getScopedEndpoint endpoint allOptions
  = Returns
      ["https://rest.api/core?page=5&size=10&sort=field1,DESC&startsWith=ab"].
Proof. reflexivity. Qed.

Lemma string_append_assoc (s1 s2 s3 : string) :
  (s1 +:+ s2) +:+ s3 = s1 +:+ s2 +:+ s3.
Proof.
  induction s1 as [| c s1 IH]; [done |].
  change (String c ((s1 +:+ s2) +:+ s3) = String c (s1 +:+ s2 +:+ s3)).
  by rewrite IH.
Qed.

(** C8.  Without a scope, [getFindAllHref] emits one href built from the
    endpoint.  A current page [n] becomes the first query parameter,
    [page=n-1]; with current page, page size, sort and prefix all given the
    href is the endpoint, one [?], and [page], [size], [sort] (field, comma,
    direction) and [startsWith] in this order with [&] between them; with no
    option given it is the endpoint itself. *)
Theorem getFindAllHref_query_parameters
    (getScopedEndpoint : string → Outcome (Observable string))
    (href : string) (options : FindAllOptions) :
  scopeID options = None →
  (∀ n, currentPage options = Some n →
     ∃ others,
       getFindAllHref getScopedEndpoint href options
       = Returns [href +:+ "?" +:+
                  join "&" (("page=" +:+ pretty (n - 1)) :: others)]) ∧
  (∀ n size order prefix,
     currentPage options = Some n →
     elementsPerPage options = Some size →
     sort options = Some order →
     startsWith options = Some prefix →
     getFindAllHref getScopedEndpoint href options
     = Returns [href +:+ "?" +:+
                "page=" +:+ pretty (n - 1) +:+ "&" +:+
                "size=" +:+ pretty size +:+ "&" +:+
                "sort=" +:+ field order +:+ "," +:+ direction order +:+ "&" +:+
                "startsWith=" +:+ prefix]) ∧
  (currentPage options = None →
   elementsPerPage options = None →
   sort options = None →
   startsWith options = None →
   getFindAllHref getScopedEndpoint href options = Returns [href]).
Proof.
  intros Hscope. unfold getFindAllHref. rewrite Hscope. repeat split.
  - intros n ->.
    destruct (elementsPerPage options), (sort options), (startsWith options);
      cbn [app]; eexists; reflexivity.
  - intros n size order prefix -> -> -> ->.
    cbn [app isNotEmpty isEmpty array_emptiable length Nat.eqb negb fmap
         list_fmap join String.concat].
    by rewrite !string_append_assoc.
  - by intros -> -> -> ->.
Qed.

Lemma getFindAllHref_query_parameters_witness :
  getFindAllHref testService_getScopedEndpoint endpoint allOptions
  = Returns
      ["https://rest.api/core?page=5&size=10&sort=field1,DESC&startsWith=ab"]
  ∧
  getFindAllHref testService_getScopedEndpoint endpoint noOptions
  = Returns [endpoint].
Proof.
  split.
  - refine (proj1 (proj2 (getFindAllHref_query_parameters
              testService_getScopedEndpoint endpoint allOptions eq_refl))
              6 10 (mkSortOptions "field1" "DESC") "ab"
              eq_refl eq_refl eq_refl eq_refl).
  - refine (proj2 (proj2 (getFindAllHref_query_parameters
              testService_getScopedEndpoint endpoint noOptions eq_refl))
              eq_refl eq_refl eq_refl eq_refl).
Defined.

End FindAllHrefFacts.

(* ===================================================================== *)
(** * Theorems: researcher profiles *)
(* ===================================================================== *)

Module ResearcherProfileFacts.
Import ResearcherProfile.

Lemma isEmpty_profileId (profileId : option string) :
  isEmpty profileId = true ↔ profileId = None ∨ profileId = Some "".
Proof.
  destruct profileId as [[| c s] |]; cbn; split; intros H;
    try done; auto; by destruct H.
Qed.

(** C9.  When the item has no [dspace.object.owner] metadata value, or that
    value has no authority or an empty one, [findByRelatedItem] issues no
    request and emits one response, which has failed; otherwise it is
    [findById] of that authority, which issues exactly the lookup of that
    uuid. *)
Theorem findByRelatedItem_guards_owner
    (dataService : DataService) (item : Item) :
  let profileId := firstMetadata item "dspace.object.owner" ≫= authority in
  (profileId = None ∨ profileId = Some "" →
   findByRelatedItem item = ([], createFailedRemoteDataObject') ∧
   ∀ response, response ∈ (findByRelatedItem item).2 →
               hasFailed response = true) ∧
  (∀ uuid, profileId = Some uuid → uuid ≠ "" →
   findByRelatedItem item = findById uuid true true [] ∧
   (findByRelatedItem item).1 = [FindByIdRequest uuid true true []]).
Proof.
  intros profileId. split.
  - intros Hempty%isEmpty_profileId.
    unfold findByRelatedItem. fold profileId. rewrite Hempty.
    split; [done |].
    intros response ->%list_elem_of_singleton. done.
  - intros uuid Hid Hne.
    unfold findByRelatedItem. fold profileId.
    assert (isEmpty profileId = false) as ->.
    { apply not_true_iff_false. intros [H | H]%isEmpty_profileId; congruence. }
    rewrite Hid. done.
Qed.

Lemma findByRelatedItem_guards_owner_witness :
  (@findByRelatedItem sampleDataService unownedItem).1 = [] ∧
  (@findByRelatedItem sampleDataService ownedItem).1
  = [FindByIdRequest "1698f1d3-be98-4c51-9fd8-6bfedcbd59b7" true true []].
Proof.
  split.
  - destruct (findByRelatedItem_guards_owner sampleDataService unownedItem)
      as [Hfailed _].
    destruct Hfailed as [-> _]; [by left | done].
  - destruct (findByRelatedItem_guards_owner sampleDataService ownedItem)
      as [_ Hfound].
    destruct (Hfound "1698f1d3-be98-4c51-9fd8-6bfedcbd59b7" eq_refl)
      as [_ Hissued]; done.
Defined.

Lemma find_first {A : Type} (p : A → bool) (before after : list A) (x : A) :
  (∀ y, y ∈ before → p y = false) →
  p x = true →
  List.find p (before ++ x :: after) = Some x.
Proof.
  intros Hbefore Hx. induction before as [| y before IH]; cbn.
  - by rewrite Hx.
  - rewrite (Hbefore y) by apply list_elem_of_here.
    apply IH. intros ? ?. by apply Hbefore, list_elem_of_further.
Qed.

(** C10.  When the responses to the delete request include a completed one,
    [delete] issues that one request and emits exactly one boolean: the
    [isSuccess] flag of the first completed response. *)
Theorem delete_emits_success_of_first_completed
    (dataService : DataService) (researcherProfile : ResearcherProfile)
    (pending later : list (RemoteData NoContent))
    (response : RemoteData NoContent) :
  dataService_delete (id researcherProfile) = pending ++ response :: later →
  (∀ earlier, earlier ∈ pending → hasCompleted earlier = false) →
  hasCompleted response = true →
  delete researcherProfile
  = ([DeleteRequest (id researcherProfile)], [isSuccess response]).
Proof.
  intros Hresponses Hpending Hcompleted.
  unfold delete, issue_delete. cbn. rewrite Hresponses.
  unfold getFirstCompletedRemoteData.
  by rewrite (find_first _ _ _ _ Hpending Hcompleted).
Qed.

Lemma delete_emits_success_of_first_completed_witness :
  @delete sampleDataService (mkResearcherProfile "profile-1")
  = ([DeleteRequest "profile-1"], [true]).
Proof.
  refine (delete_emits_success_of_first_completed sampleDataService
            (mkResearcherProfile "profile-1")
            [mkRemoteData false false false None] []
            (mkRemoteData true false true (Some noContent)) eq_refl _ eq_refl).
  intros earlier ->%list_elem_of_singleton. reflexivity.
Defined.

End ResearcherProfileFacts.

(* ===================================================================== *)
(** * Further theorems: community list *)
(* ===================================================================== *)

Module CommunityListMoreFacts.
Import CommunityList CommunityListRows CommunityListFixture CommunityListView.
Import CommunityListFacts.

(** ** Arrays *)

Lemma bind_ext_elem {A B : Type} (f g : A → list B) (l : list A) :
  (∀ x, x ∈ l → f x = g x) → l ≫= f = l ≫= g.
Proof.
  induction l as [| x l IH]; intros Hfg; cbn; [done |].
  rewrite (Hfg x) by apply list_elem_of_here.
  rewrite IH; [done |]. intros y Hy. by apply Hfg, list_elem_of_further.
Qed.

Lemma find_none_elem {A : Type} (p : A → bool) (l : list A) :
  (∀ x, x ∈ l → p x = false) → List.find p l = None.
Proof.
  induction l as [| x l IH]; intros Hp; cbn; [done |].
  rewrite (Hp x) by apply list_elem_of_here.
  apply IH. intros y Hy. by apply Hp, list_elem_of_further.
Qed.

Lemma find_some_elem {A : Type} (p : A → bool) (l : list A) (x : A) :
  List.find p l = Some x → x ∈ l ∧ p x = true.
Proof.
  intros [Hin Hp]%List.find_some. by rewrite list_elem_of_In.
Qed.

Lemma find_app_first {A : Type} (p : A → bool) (l1 l2 : list A) :
  List.find p (l1 ++ l2)
  = match List.find p l1 with
    | Some x => Some x
    | None => List.find p l2
    end.
Proof.
  induction l1 as [| x l1 IH]; cbn; [done |]. by destruct (p x).
Qed.

Lemma take_prefix_le {A : Type} (l : list A) (n m : nat) :
  (n ≤ m)%nat → take n l `prefix_of` take m l.
Proof.
  intros Hle. replace (take n l) with (take n (take m l)).
  - apply prefix_take.
  - rewrite take_take. f_equal. lia.
Qed.

Lemma filter_bind {A B : Type} (p : B → bool) (f : A → list B) (l : list A) :
  List.filter p (l ≫= f) = l ≫= (λ x, List.filter p (f x)).
Proof.
  induction l as [| x l IH]; cbn; [done |].
  by rewrite List.filter_app, IH.
Qed.

(** ** Blocks *)

(** The output depends on the expanded nodes only through the node found for
    each top node of the page. *)
Lemma loadCommunities_expandedParentOf tops coms this exps exps' :
  (∀ topNode, topNode ∈ topPage tops this →
     expandedParentOf exps topNode = expandedParentOf exps' topNode) →
  loadCommunities tops coms this (Some exps)
  = loadCommunities tops coms this (Some exps').
Proof.
  intros Hsame. rewrite !loadCommunities_rowBlocks.
  change (default [] (Some exps)) with exps.
  change (default [] (Some exps')) with exps'.
  do 2 f_equal. apply bind_ext_elem. intros topNode Htop.
  unfold rowBlock, childRows. by rewrite (Hsame topNode Htop).
Qed.

Lemma loadCommunities_null_empty tops coms this :
  loadCommunities tops coms this None = loadCommunities tops coms this (Some []).
Proof. by rewrite !loadCommunities_rowBlocks. Qed.

Lemma pagedGroup_NaN kind rows topNode expandedParent :
  pagedGroup kind rows None topNode expandedParent = [].
Proof. unfold pagedGroup, slice0. by destruct rows. Qed.

Lemma pagedGroup_parent n kind rows limit topNode expandedParent :
  n ∈ pagedGroup kind rows limit topNode expandedParent →
  (∀ r, r ∈ rows → isRootRow r = false) →
  isRootRow n = false.
Proof.
  unfold pagedGroup. destruct (isNotEmpty rows); [| by intros ?%elem_of_nil].
  intros [Hin | Hin]%elem_of_app Hrows.
  - apply Hrows. unfold slice0 in Hin. by eapply subseteq_take.
  - destruct (lengthGt rows limit); [| by apply elem_of_nil in Hin].
    apply list_elem_of_singleton in Hin. by subst n.
Qed.

Lemma childRows_not_root coms this exps topNode n :
  n ∈ childRows coms this exps topNode → isRootRow n = false.
Proof.
  unfold childRows.
  destruct (expandedParentOf exps topNode) as [expandedParent |];
    [| by intros ?%elem_of_nil].
  destruct (childrenArraysOf coms topNode) as [children |];
    [| by intros ?%elem_of_nil].
  intros [Hin | Hin]%elem_of_app;
    (eapply pagedGroup_parent; [exact Hin |]);
    intros r (c & -> & _)%list_elem_of_fmap; done.
Qed.

Lemma filter_none {A : Type} (p : A → bool) (l : list A) :
  (∀ x, x ∈ l → p x = false) → List.filter p l = [].
Proof.
  induction l as [| x l IH]; intros Hp; cbn; [done |].
  rewrite (Hp x) by apply list_elem_of_here.
  apply IH. intros y Hy. by apply Hp, list_elem_of_further.
Qed.

(** ** Expanded nodes that do not count *)

(** Expanded nodes whose id is not the id of a top node of the page change
    nothing: the tree is the unexpanded one.  (So the stub never opens a
    subcommunity, nor a top community beyond the page.) *)
Theorem unmatched_expanded_nodes_ignored
    (tops : list FlatNode) (coms : list TopCommunityWithArrays)
    (this : CommunityListService) (exps : list FlatNode) :
  (∀ topNode e, topNode ∈ topPage tops this → e ∈ exps → id e ≠ id topNode) →
  loadCommunities tops coms this (Some exps)
  = loadCommunities tops coms this None.
Proof.
  intros Hids. rewrite loadCommunities_null_empty.
  apply loadCommunities_expandedParentOf. intros topNode Htop.
  unfold expandedParentOf. cbn [List.find].
  apply find_none_elem. intros e He.
  apply String.eqb_neq. by apply Hids.
Qed.

Lemma unmatched_expanded_nodes_ignored_witness :
  let subcommunity1 :=
    expanded (toFlatNode (inl (mkCommunity "ce64f48e-2c9b-411a-ac36-ee429c0e6a88"
                       "ce64f48e-2c9b-411a-ac36-ee429c0e6a88" "subcommunity1"))
      false 1 false (Some community1)) in
  loadCommunities mockTopFlatnodesUnexpanded
    mockTopCommunitiesWithChildrenArrays communityListServiceStub
    (Some [subcommunity1; expanded community3])
  = observableOf [community1; community2; showMoreFlatNode "community" 0 None].
Proof.
  intros subcommunity1.
  rewrite (unmatched_expanded_nodes_ignored mockTopFlatnodesUnexpanded
             mockTopCommunitiesWithChildrenArrays communityListServiceStub
             [subcommunity1; expanded community3]); [reflexivity |].
  intros topNode e Htop He.
  change (topPage mockTopFlatnodesUnexpanded communityListServiceStub)
    with [community1; community2] in Htop.
  repeat (apply elem_of_cons in Htop as [-> | Htop]);
    repeat (apply elem_of_cons in He as [-> | He]);
    try (by apply elem_of_nil in Htop); try (by apply elem_of_nil in He);
    by apply String.eqb_neq.
Defined.

(** Of several expanded nodes with one id only the first counts: nodes added
    behind the list whose ids are already in it change nothing. *)
Theorem later_expanded_nodes_with_known_id_ignored
    (tops : list FlatNode) (coms : list TopCommunityWithArrays)
    (this : CommunityListService) (exps extra : list FlatNode) :
  (∀ e, e ∈ extra → ∃ e', e' ∈ exps ∧ id e' = id e) →
  loadCommunities tops coms this (Some (exps ++ extra))
  = loadCommunities tops coms this (Some exps).
Proof.
  intros Hknown. apply loadCommunities_expandedParentOf. intros topNode _.
  unfold expandedParentOf. rewrite find_app_first.
  destruct (List.find _ exps) as [e |] eqn:Hfind; [done |].
  apply find_none_elem. intros e He.
  destruct (Hknown e He) as (e' & He' & Hid).
  rewrite <- Hid.
  apply (List.find_none _ _ Hfind). by apply list_elem_of_In.
Qed.

Lemma later_expanded_nodes_with_known_id_ignored_witness :
  loadCommunities [expanded community1; community2; community3]
    mockTopCommunitiesWithChildrenArrays communityListServiceStub
    (Some ([expanded community1] ++ [community1]))
  = loadCommunities [expanded community1; community2; community3]
      mockTopCommunitiesWithChildrenArrays communityListServiceStub
      (Some [expanded community1]).
Proof.
  apply later_expanded_nodes_with_known_id_ignored.
  intros e ->%list_elem_of_singleton.
  exists (expanded community1). split; [apply list_elem_of_here | reflexivity].
Defined.

(** Expanded nodes that carry no page counters show none of their children
    and no show-more row for them: both limits are [NaN]. *)
Theorem expanded_nodes_without_counters_show_no_children
    (tops : list FlatNode) (coms : list TopCommunityWithArrays)
    (this : CommunityListService) (exps : list FlatNode) :
  (∀ e, e ∈ exps →
     currentCommunityPage e = None ∧ currentCollectionPage e = None) →
  loadCommunities tops coms this (Some exps)
  = loadCommunities tops coms this None.
Proof.
  intros Hcounters. rewrite !loadCommunities_rowBlocks.
  change (default [] (Some exps)) with exps.
  change (default [] None) with (@nil FlatNode).
  do 2 f_equal. apply bind_ext_elem. intros topNode _.
  unfold rowBlock, childRows. change (expandedParentOf [] topNode) with (@None FlatNode).
  destruct (expandedParentOf exps topNode) as [expandedParent |] eqn:Hfind;
    [| done].
  destruct (childrenArraysOf coms topNode) as [children |]; [| done].
  apply find_some_elem in Hfind as [Hin _].
  destruct (Hcounters _ Hin) as [-> ->]. cbn [timesPage fmap option_fmap option_map].
  by rewrite !pagedGroup_NaN.
Qed.

Lemma expanded_nodes_without_counters_show_no_children_witness :
  loadCommunities mockTopFlatnodesUnexpanded
    mockTopCommunitiesWithChildrenArrays communityListServiceStub
    (Some [community1; community2])
  = observableOf [community1; community2; showMoreFlatNode "community" 0 None].
Proof.
  rewrite (expanded_nodes_without_counters_show_no_children
             mockTopFlatnodesUnexpanded mockTopCommunitiesWithChildrenArrays
             communityListServiceStub [community1; community2]);
    [reflexivity |].
  intros e He.
  repeat (apply elem_of_cons in He as [-> | He]); try done.
  by apply elem_of_nil in He.
Defined.

(** ** Page limits *)

Lemma loadCommunities_unexpanded tops coms this :
  loadCommunities tops coms this None
  = observableOf (topPage tops this ++ topShowMore (topPageLimit tops this).2).
Proof.
  rewrite loadCommunities_rowBlocks.
  change (default [] None) with (@nil FlatNode).
  rewrite (list_bind_ext _ (λ t, [t]) _ _ (rowBlock_unexpanded coms this) eq_refl).
  by rewrite bind_singleton.
Qed.

Lemma topPageLimit_covering tops this :
  Z.of_nat (length tops) ≤ topCurrentPage this * topPageSize this →
  topPage tops this = tops ∧ (topPageLimit tops this).2 = false.
Proof.
  intros Hall. unfold topPage, topPageLimit. rewrite Z.geb_leb.
  destruct (Z.leb_spec (Z.of_nat (length tops))
              (topCurrentPage this * topPageSize this)); [| lia].
  cbn [fst snd]. by rewrite slice0_length.
Qed.

Lemma topPageLimit_flag tops this :
  (topPageLimit tops this).2
  = (topCurrentPage this * topPageSize this <? Z.of_nat (length tops)).
Proof.
  unfold topPageLimit. rewrite Z.geb_leb.
  destruct (Z.leb_spec (Z.of_nat (length tops))
              (topCurrentPage this * topPageSize this)); cbn [snd];
    symmetry; [apply Z.ltb_ge | apply Z.ltb_lt]; lia.
Qed.

Lemma iter_getNextPageTopCommunities (n : nat) (this : CommunityListService) :
  let final := Nat.iter n getNextPageTopCommunities this in
  topCurrentPage final = topCurrentPage this + Z.of_nat n ∧
  topPageSize final = topPageSize this ∧
  collectionPageSize final = collectionPageSize this ∧
  subcommunityPageSize final = subcommunityPageSize this.
Proof.
  induction n as [| n (Hpage & Hsize & Hcoll & Hsub)]; cbn zeta.
  - cbn. repeat split. lia.
  - rewrite Nat.iter_succ.
    cbn [getNextPageTopCommunities topCurrentPage topPageSize
         collectionPageSize subcommunityPageSize].
    cbn zeta in Hpage. rewrite Hpage. repeat split; try done. lia.
Qed.

(** A negative page limit counts from the end of the list: the tree shows all
    top nodes but the last [-limit], and always offers a show-more row, even
    when there is no top node at all. *)
Theorem negative_top_limit_counts_from_end
    (tops : list FlatNode) (coms : list TopCommunityWithArrays)
    (this : CommunityListService) :
  topCurrentPage this * topPageSize this < 0 →
  let dropped := Z.to_nat (- (topCurrentPage this * topPageSize this)) in
  loadCommunities tops coms this None
  = observableOf
      (take (length tops - dropped) tops ++
       [showMoreFlatNode "community" 0 None]).
Proof.
  intros Hneg dropped. rewrite loadCommunities_unexpanded.
  rewrite topPageLimit_flag.
  destruct (Z.ltb_spec (topCurrentPage this * topPageSize this)
              (Z.of_nat (length tops))) as [_ | ?]; [| lia].
  unfold topPage, topPageLimit. rewrite Z.geb_leb.
  destruct (Z.leb_spec (Z.of_nat (length tops))
              (topCurrentPage this * topPageSize this)); [lia |].
  cbn [fst]. unfold slice0. cbn [default from_option].
  change (Datatypes.id (topCurrentPage this * topPageSize this))
    with (topCurrentPage this * topPageSize this).
  destruct (Z.ltb_spec (topCurrentPage this * topPageSize this) 0); [| lia].
  do 3 f_equal. unfold dropped. lia.
Qed.

Lemma negative_top_limit_counts_from_end_witness :
  loadCommunities mockTopFlatnodesUnexpanded
    mockTopCommunitiesWithChildrenArrays
    {| topPageSize := 2; topCurrentPage := -1;
       collectionPageSize := 2; subcommunityPageSize := 2 |} None
  = observableOf [community1; showMoreFlatNode "community" 0 None].
Proof.
  refine (negative_top_limit_counts_from_end mockTopFlatnodesUnexpanded
            mockTopCommunitiesWithChildrenArrays
            {| topPageSize := 2; topCurrentPage := -1;
               collectionPageSize := 2; subcommunityPageSize := 2 |} _).
  cbn. lia.
Defined.

(** Asking for the next page never takes a top node away: with a page number
    and a page size that are not negative, the unexpanded tree after
    [getNextPageTopCommunities] starts with the top nodes it showed before. *)
Theorem next_page_extends_page
    (tops : list FlatNode) (coms : list TopCommunityWithArrays)
    (this : CommunityListService) :
  0 ≤ topCurrentPage this →
  0 ≤ topPageSize this →
  let next := getNextPageTopCommunities this in
  ∃ page page' more more',
    loadCommunities tops coms this None = observableOf (page ++ more) ∧
    loadCommunities tops coms next None = observableOf (page' ++ more') ∧
    page `prefix_of` page' ∧
    page' `prefix_of` tops ∧
    (more = [] ∨ more = [showMoreFlatNode "community" 0 None]) ∧
    (more' = [] ∨ more' = [showMoreFlatNode "community" 0 None]).
Proof.
  intros Hpage Hsize next.
  exists (topPage tops this), (topPage tops next),
    (topShowMore (topPageLimit tops this).2),
    (topShowMore (topPageLimit tops next).2).
  split; [apply loadCommunities_unexpanded |].
  split; [apply loadCommunities_unexpanded |].
  assert (Hnn : 0 ≤ topCurrentPage this * topPageSize this) by lia.
  assert (Hnn' : 0 ≤ topCurrentPage next * topPageSize next) by (cbn; lia).
  destruct (topPageLimit_nonneg tops this Hnn) as [-> _].
  destruct (topPageLimit_nonneg tops next Hnn') as [Hnext _].
  split; [| split; [apply topPage_prefix |]].
  - rewrite Hnext. apply take_prefix_le. cbn. lia.
  - split; unfold topShowMore;
      match goal with |- context [if ?b then _ else _] => destruct b end; auto.
Qed.

Lemma next_page_extends_page_witness :
  ∃ page page' more more',
    loadCommunities mockTopFlatnodesUnexpanded
      mockTopCommunitiesWithChildrenArrays communityListServiceStub None
    = observableOf (page ++ more) ∧
    loadCommunities mockTopFlatnodesUnexpanded
      mockTopCommunitiesWithChildrenArrays
      (getNextPageTopCommunities communityListServiceStub) None
    = observableOf (page' ++ more') ∧
    page `prefix_of` page'.
Proof.
  destruct (next_page_extends_page mockTopFlatnodesUnexpanded
              mockTopCommunitiesWithChildrenArrays communityListServiceStub)
    as (page & page' & more & more' & H1 & H2 & Hprefix & _);
    [cbn; lia | cbn; lia |].
  by exists page, page', more, more'.
Defined.

(** Once every top node is shown (no top-level show-more row is due), asking
    for the next page changes nothing, whatever is expanded. *)
Theorem next_page_after_last_changes_nothing
    (tops : list FlatNode) (coms : list TopCommunityWithArrays)
    (this : CommunityListService) (expandedNodes : option (list FlatNode)) :
  0 ≤ topPageSize this →
  Z.of_nat (length tops) ≤ topCurrentPage this * topPageSize this →
  loadCommunities tops coms (getNextPageTopCommunities this) expandedNodes
  = loadCommunities tops coms this expandedNodes.
Proof.
  intros Hsize Hall. rewrite !loadCommunities_rowBlocks.
  destruct (topPageLimit_covering tops this Hall) as [-> ->].
  destruct (topPageLimit_covering tops (getNextPageTopCommunities this))
    as [-> ->]; [cbn; lia | done].
Qed.

Lemma next_page_after_last_changes_nothing_witness :
  let shown := getNextPageTopCommunities communityListServiceStub in
  loadCommunities mockTopFlatnodesUnexpanded
    mockTopCommunitiesWithChildrenArrays (getNextPageTopCommunities shown)
    (Some [expanded community2])
  = loadCommunities mockTopFlatnodesUnexpanded
      mockTopCommunitiesWithChildrenArrays shown (Some [expanded community2]).
Proof.
  intros shown.
  apply next_page_after_last_changes_nothing; cbn; lia.
Defined.

(** Show-more comes to an end: from a page number that is not negative and
    with a page size of at least one, as many activations as there are top
    nodes (or more) leave every top node shown and no top-level show-more
    row. *)
Theorem show_more_eventually_shows_all
    (tops : list FlatNode) (coms : list TopCommunityWithArrays)
    (this : CommunityListService) (n : nat) :
  0 ≤ topCurrentPage this →
  1 ≤ topPageSize this →
  (length tops ≤ n)%nat →
  let final := Nat.iter n getNextPageTopCommunities this in
  topCurrentPage final = topCurrentPage this + Z.of_nat n ∧
  loadCommunities tops coms final None = observableOf tops.
Proof.
  intros Hpage Hsize Hn final.
  destruct (iter_getNextPageTopCommunities n this) as (Hp & Hs & _).
  fold final in Hp, Hs. split; [done |].
  rewrite loadCommunities_unexpanded.
  destruct (topPageLimit_covering tops final) as [-> ->].
  - rewrite Hp, Hs. nia.
  - cbn. by rewrite app_nil_r.
Qed.

Lemma show_more_eventually_shows_all_witness :
  loadCommunities mockTopFlatnodesUnexpanded
    mockTopCommunitiesWithChildrenArrays
    (Nat.iter 3 getNextPageTopCommunities communityListServiceStub) None
  = observableOf mockTopFlatnodesUnexpanded.
Proof.
  refine (proj2 (show_more_eventually_shows_all mockTopFlatnodesUnexpanded
                   mockTopCommunitiesWithChildrenArrays
                   communityListServiceStub 3 _ _ _)); cbn; lia.
Defined.

(** ** What expanding leaves alone *)

(** Expanding nodes only adds rows below top nodes: when the top nodes have no
    parent, the rows without a parent of any tree are, in order, the
    unexpanded tree (the same top nodes and the same top-level show-more
    row). *)
Theorem root_rows_are_the_unexpanded_tree
    (tops : list FlatNode) (coms : list TopCommunityWithArrays)
    (this : CommunityListService) (exps rows : list FlatNode) :
  (∀ topNode, topNode ∈ tops → parent topNode = None) →
  loadCommunities tops coms this (Some exps) = observableOf rows →
  loadCommunities tops coms this None
  = observableOf (List.filter isRootRow rows).
Proof.
  intros Hroot Hrows. rewrite loadCommunities_rowBlocks in Hrows.
  change (default [] (Some exps)) with exps in Hrows.
  injection Hrows as <-.
  rewrite loadCommunities_unexpanded. f_equal.
  rewrite List.filter_app, filter_bind. f_equal.
  - rewrite <- (bind_singleton (topPage tops this)) at 1.
    apply bind_ext_elem. intros topNode Htop.
    unfold rowBlock. cbn [List.filter]. unfold isRootRow at 1.
    rewrite (Hroot topNode) by (by eapply elem_of_prefix; [| apply topPage_prefix]).
    f_equal. symmetry. apply filter_none. apply childRows_not_root.
  - unfold topShowMore. by destruct (topPageLimit tops this).2.
Qed.

Lemma root_rows_are_the_unexpanded_tree_witness :
  ∃ rows,
    loadCommunities [community1; expanded community2; community3]
      mockTopCommunitiesWithChildrenArrays communityListServiceStub
      (Some [expanded community2])
    = observableOf rows ∧
    name <$> rows
    = ["community1"; "community2"; "collection1"; "collection2";
       "Show More Flatnode"; "Show More Flatnode"] ∧
    name <$> List.filter isRootRow rows
    = ["community1"; "community2"; "Show More Flatnode"] ∧
    loadCommunities [community1; expanded community2; community3]
      mockTopCommunitiesWithChildrenArrays communityListServiceStub None
    = observableOf (List.filter isRootRow rows).
Proof.
  eexists. split; [reflexivity |]. split; [reflexivity |].
  split; [reflexivity |].
  apply (root_rows_are_the_unexpanded_tree _ _ _ [expanded community2]);
    [| reflexivity].
  intros topNode Htop.
  repeat (apply elem_of_cons in Htop as [-> | Htop]; [reflexivity |]).
  by apply elem_of_nil in Htop.
Defined.

Lemma elem_of_pagedGroup_showMore n kind rows limit topNode expandedParent :
  n ∈ pagedGroup kind rows limit topNode expandedParent →
  isShowMoreNode n = true →
  (∀ r, r ∈ rows → isShowMoreNode r = false) →
  n = showMoreFlatNode kind (level topNode + 1) (Some expandedParent).
Proof.
  unfold pagedGroup. destruct (isNotEmpty rows); [| by intros ?%elem_of_nil].
  intros [Hin | Hin]%elem_of_app Hmore Hrows.
  - unfold slice0 in Hin. apply subseteq_take, Hrows in Hin. congruence.
  - destruct (lengthGt rows limit); [| by apply elem_of_nil in Hin].
    by apply list_elem_of_singleton in Hin.
Qed.

(** Where show-more rows come from: when no top node is a show-more row, a
    show-more row of the tree is either the top-level one, or stands behind a
    group of children of a top node of the page; then it sits one level below
    that top node and its parent is the expanded node found for it, the one
    whose page counter limits the group. *)
Theorem show_more_rows_origin
    (tops : list FlatNode) (coms : list TopCommunityWithArrays)
    (this : CommunityListService) (expandedNodes : option (list FlatNode))
    (rows : list FlatNode) (n : FlatNode) :
  (∀ topNode, topNode ∈ tops → isShowMoreNode topNode = false) →
  rows ∈ loadCommunities tops coms this expandedNodes →
  n ∈ rows →
  isShowMoreNode n = true →
  n = showMoreFlatNode "community" 0 None ∨
  ∃ topNode expandedParent kind,
    topNode ∈ topPage tops this ∧
    expandedParentOf (default [] expandedNodes) topNode = Some expandedParent ∧
    id expandedParent = id topNode ∧
    (kind = "community" ∨ kind = "collection") ∧
    n = showMoreFlatNode kind (level topNode + 1) (Some expandedParent).
Proof.
  intros Htops Hrows Hn Hmore.
  rewrite loadCommunities_rowBlocks in Hrows.
  apply list_elem_of_singleton in Hrows as ->.
  apply elem_of_app in Hn as [Hn | Hn].
  - right. apply list_elem_of_bind in Hn as (topNode & Hn & Htop).
    unfold rowBlock in Hn. apply elem_of_cons in Hn as [-> | Hn].
    { rewrite Htops in Hmore; [done |].
      by eapply elem_of_prefix; [| apply topPage_prefix]. }
    unfold childRows in Hn.
    destruct (expandedParentOf _ topNode) as [expandedParent |] eqn:Hexp;
      [| by apply elem_of_nil in Hn].
    destruct (childrenArraysOf coms topNode) as [children |];
      [| by apply elem_of_nil in Hn].
    assert (Hid : id expandedParent = id topNode).
    { apply find_some_elem in Hexp as [_ Hid]. by apply String.eqb_eq. }
    apply elem_of_app in Hn as [Hn | Hn];
      apply elem_of_pagedGroup_showMore in Hn; try done;
      try (by intros r (c & -> & _)%list_elem_of_fmap).
    + exists topNode, expandedParent, "community". repeat split; auto.
    + exists topNode, expandedParent, "collection". repeat split; auto.
  - left. unfold topShowMore in Hn.
    destruct (topPageLimit tops this).2; [| by apply elem_of_nil in Hn].
    by apply list_elem_of_singleton in Hn.
Qed.

Lemma show_more_rows_origin_witness :
  let collectionsMore :=
    showMoreFlatNode "collection" 1 (Some (expanded community2)) in
  ∃ topNode expandedParent kind,
    collectionsMore
    = showMoreFlatNode kind (level topNode + 1) (Some expandedParent) ∧
    id expandedParent = id topNode.
Proof.
  intros collectionsMore.
  pose (tops := [community1; expanded community2; community3]).
  pose (rows := [community1; expanded community2;
                 toFlatNode (inr (mkCollection
                   "e9dbf393-7127-415f-8919-55be34a6e9ed"
                   "e9dbf393-7127-415f-8919-55be34a6e9ed" "collection1"))
                   false 1 false (Some (expanded community2));
                 toFlatNode (inr (mkCollection
                   "59da2ff0-9bf4-45bf-88be-e35abd33f304"
                   "59da2ff0-9bf4-45bf-88be-e35abd33f304" "collection2"))
                   false 1 false (Some (expanded community2));
                 collectionsMore; showMoreFlatNode "community" 0 None]).
  assert (Htops : ∀ topNode, topNode ∈ tops → isShowMoreNode topNode = false).
  { intros topNode Htop.
    repeat (apply elem_of_cons in Htop as [-> | Htop]; [reflexivity |]).
    by apply elem_of_nil in Htop. }
  assert (Hrows : rows ∈ loadCommunities tops
                    mockTopCommunitiesWithChildrenArrays
                    communityListServiceStub (Some [expanded community2]))
    by (apply list_elem_of_singleton; reflexivity).
  assert (Hn : collectionsMore ∈ rows)
    by (do 4 apply list_elem_of_further; apply list_elem_of_here).
  destruct (show_more_rows_origin tops _ _ _ rows collectionsMore
              Htops Hrows Hn eq_refl)
    as [Htop | (topNode & expandedParent & kind & _ & _ & Hid & _ & Heq)].
  - discriminate Htop.
  - by exists topNode, expandedParent, kind.
Defined.

End CommunityListMoreFacts.

(* ===================================================================== *)
(** * Further theorems: researcher profiles *)
(* ===================================================================== *)

Module ResearcherProfileMoreFacts.
Import FindAllHref ResearcherProfile ResearcherProfileOrcid.
Import ResearcherProfileFacts.
Import Stdlib.Strings.Ascii.

(** ** Operators *)

Lemma getFirstCompleted_first {T : Type}
    (pending later : list (RemoteData T)) (response : RemoteData T) :
  (∀ earlier, earlier ∈ pending → hasCompleted earlier = false) →
  hasCompleted response = true →
  getFirstCompletedRemoteData (pending ++ response :: later) = [response].
Proof.
  intros Hpending Hcompleted. unfold getFirstCompletedRemoteData.
  by rewrite (find_first _ _ _ _ Hpending Hcompleted).
Qed.

Lemma find_all_false {A : Type} (p : A → bool) (l : list A) :
  (∀ x, x ∈ l → p x = false) → List.find p l = None.
Proof.
  induction l as [| x l IH]; intros Hp; cbn; [done |].
  rewrite (Hp x) by apply list_elem_of_here.
  apply IH. intros y Hy. by apply Hp, list_elem_of_further.
Qed.

Lemma getFirstCompleted_pending {T : Type} (responses : list (RemoteData T)) :
  (∀ r, r ∈ responses → hasCompleted r = false) →
  getFirstCompletedRemoteData responses = [].
Proof.
  intros Hpending. unfold getFirstCompletedRemoteData.
  by rewrite find_all_false.
Qed.

Lemma getFirstCompleted_length {T : Type} (responses : list (RemoteData T)) :
  (length (getFirstCompletedRemoteData responses) ≤ 1)%nat.
Proof.
  unfold getFirstCompletedRemoteData.
  destruct (List.find _ responses); cbn; lia.
Qed.

Lemma getFirstCompleted_app {T : Type}
    (responses more : list (RemoteData T)) (response : RemoteData T) :
  getFirstCompletedRemoteData responses = [response] →
  getFirstCompletedRemoteData (responses ++ more) = [response].
Proof.
  unfold getFirstCompletedRemoteData.
  induction responses as [| r responses IH]; cbn; [done |].
  destruct (hasCompleted r); [done | apply IH].
Qed.

Lemma getFirstCompleted_getAllCompleted {T : Type}
    (responses : list (RemoteData T)) :
  getFirstCompletedRemoteData (getAllCompletedRemoteData responses)
  = getFirstCompletedRemoteData responses.
Proof.
  unfold getFirstCompletedRemoteData, getAllCompletedRemoteData.
  induction responses as [| r responses IH]; cbn; [done |].
  destruct (hasCompleted r) eqn:Hr; cbn; [by rewrite Hr | apply IH].
Qed.

(** ** delete *)

(** [delete] answers at most once: no boolean while every response to the
    request is pending, never more than one, and an answer once given stays
    the answer whatever responses follow. *)
Theorem delete_answers_at_most_once
    (dataService later : DataService) (researcherProfile : ResearcherProfile)
    (more : list (RemoteData NoContent)) :
  @dataService_delete later (id researcherProfile)
  = @dataService_delete dataService (id researcherProfile) ++ more →
  (length (@delete dataService researcherProfile).2 ≤ 1)%nat ∧
  ((∀ r, r ∈ @dataService_delete dataService (id researcherProfile) →
         hasCompleted r = false) →
   (@delete dataService researcherProfile).2 = []) ∧
  (∀ answer, (@delete dataService researcherProfile).2 = [answer] →
             (@delete later researcherProfile).2 = [answer]).
Proof.
  intros Hlater. unfold delete, issue_delete. cbn. rewrite Hlater.
  split; [| split].
  - rewrite length_fmap. apply getFirstCompleted_length.
  - intros Hpending. by rewrite getFirstCompleted_pending.
  - intros answer Hanswer.
    destruct (getFirstCompletedRemoteData (dataService_delete _))
      as [| response [| ? ?]] eqn:Hfirst; try done.
    by rewrite (getFirstCompleted_app _ _ _ Hfirst).
Qed.

Lemma delete_answers_at_most_once_witness :
  let later : DataService :=
    {| dataService_findById _ _ _ _ := [];
       dataService_delete objectId :=
         @dataService_delete sampleDataService objectId ++
         [mkRemoteData true true false None] |} in
  (@delete later (mkResearcherProfile "profile-1")).2 = [true].
Proof.
  intros later.
  destruct (delete_answers_at_most_once sampleDataService later
              (mkResearcherProfile "profile-1")
              [mkRemoteData true true false None] eq_refl)
    as (_ & _ & Hstays).
  apply Hstays. reflexivity.
Defined.

(** ** Linking and unlinking ORCID *)

Section Orcid.

Context `{services : Services}.

Lemma findByIdOf_uuid (uuid : string) :
  findByIdOf (Some uuid)
  = ([ProfileCall (FindByIdRequest uuid true true [])],
     getAllCompletedRemoteData (dataService_findById uuid true true [])).
Proof. reflexivity. Qed.

End Orcid.

(** An item without a [dspace.object.owner] value: [findByRelatedItem]
    answers with a failed response and asks nothing, whereas
    [linkOrcidByItem] and [unlinkOrcidByItem] read the authority unguarded
    and throw, before any call is made. *)
Theorem orcid_link_without_owner_throws
    (services : Services) (person : Item) (code : string) :
  firstMetadata person "dspace.object.owner" = None →
  findByRelatedItem person = ([], createFailedRemoteDataObject') ∧
  linkOrcidByItem person code = Throws "TypeError" ∧
  unlinkOrcidByItem person = Throws "TypeError".
Proof.
  intros Hnone.
  unfold findByRelatedItem, linkOrcidByItem, unlinkOrcidByItem.
  by rewrite Hnone.
Qed.

Lemma orcid_link_without_owner_throws_witness :
  @linkOrcidByItem sampleServices unownedItem "code-1"
  = Throws "TypeError".
Proof.
  refine (proj1 (proj2 (orcid_link_without_owner_throws
                          sampleServices unownedItem "code-1" eq_refl))).
Defined.

(** With an owner authority, [linkOrcidByItem] and [unlinkOrcidByItem] look
    the profile up under that uuid and, as soon as a response to the lookup
    has completed, patch the payload of that response with one operation
    (add [/orcid] with the code, resp. remove [/orcid]) and hand on what the
    patch answers.  Whether the lookup succeeded is not asked: after a failed
    lookup the patch goes out for its payload all the same. *)
Theorem orcid_link_patches_first_completed_payload
    (services : Services) (person : Item) (code : string) (owner : MetadataValue) (uuid : string)
    (pending later : list (RemoteData ResearcherProfile))
    (profileRD : RemoteData ResearcherProfile) :
  firstMetadata person "dspace.object.owner" = Some owner →
  authority owner = Some uuid →
  dataService_findById uuid true true [] = pending ++ profileRD :: later →
  (∀ earlier, earlier ∈ pending → hasCompleted earlier = false) →
  hasCompleted profileRD = true →
  linkOrcidByItem person code
  = Returns
      ([ProfileCall (FindByIdRequest uuid true true []);
        PatchCall (payload profileRD) [AddOperation "/orcid" code]],
       dataService_patch (payload profileRD) [AddOperation "/orcid" code]) ∧
  unlinkOrcidByItem person
  = Returns
      ([ProfileCall (FindByIdRequest uuid true true []);
        PatchCall (payload profileRD) [RemoveOperation "/orcid"]],
       dataService_patch (payload profileRD) [RemoveOperation "/orcid"]).
Proof.
  intros Howner Huuid Hresponses Hpending Hcompleted.
  unfold linkOrcidByItem, unlinkOrcidByItem.
  rewrite Howner, Huuid, findByIdOf_uuid.
  cbn [mbind calling_bind].
  rewrite getFirstCompleted_getAllCompleted, Hresponses.
  by rewrite (getFirstCompleted_first _ _ _ Hpending Hcompleted).
Qed.

Lemma orcid_link_patches_first_completed_payload_witness :
  @linkOrcidByItem sampleServices ownedItem "code-1"
  = Returns
      ([ProfileCall (FindByIdRequest "1698f1d3-be98-4c51-9fd8-6bfedcbd59b7"
                       true true []);
        PatchCall None [AddOperation "/orcid" "code-1"]],
       [mkRemoteData true false true None]).
Proof.
  refine (proj1 (orcid_link_patches_first_completed_payload
                   sampleServices ownedItem "code-1"
                   (mkMetadataValue "Doe, Jane"
                      (Some "1698f1d3-be98-4c51-9fd8-6bfedcbd59b7"))
                   "1698f1d3-be98-4c51-9fd8-6bfedcbd59b7"
                   [mkRemoteData false false false None] []
                   (mkRemoteData true true false None)
                   eq_refl eq_refl eq_refl _ eq_refl)).
  intros earlier ->%list_elem_of_singleton. reflexivity.
Defined.

(** While no response to the lookup has completed, [linkOrcidByItem] and
    [unlinkOrcidByItem] have asked for the profile only: no patch has gone
    out and nothing is emitted. *)
Theorem orcid_link_waits_for_lookup
    (services : Services) (person : Item) (code : string) (owner : MetadataValue) (uuid : string) :
  firstMetadata person "dspace.object.owner" = Some owner →
  authority owner = Some uuid →
  (∀ r, r ∈ dataService_findById uuid true true [] → hasCompleted r = false) →
  linkOrcidByItem person code
  = Returns ([ProfileCall (FindByIdRequest uuid true true [])], []) ∧
  unlinkOrcidByItem person
  = Returns ([ProfileCall (FindByIdRequest uuid true true [])], []).
Proof.
  intros Howner Huuid Hpending.
  unfold linkOrcidByItem, unlinkOrcidByItem.
  rewrite Howner, Huuid, findByIdOf_uuid.
  cbn [mbind calling_bind].
  rewrite getFirstCompleted_getAllCompleted.
  by rewrite (getFirstCompleted_pending _ Hpending).
Qed.

Lemma orcid_link_waits_for_lookup_witness :
  let pendingLookup : Services :=
    {| profiles :=
         {| dataService_findById _ _ _ _ :=
              [mkRemoteData false false false None];
            dataService_delete _ := [] |};
       dataService_findById_undefined := [];
       dataService_patch object _ := [mkRemoteData true false true object];
       configurationService_findByPropertyName _ := [];
       itemService_findByHref _ _ := [] |} in
  @unlinkOrcidByItem pendingLookup ownedItem
  = Returns
      ([ProfileCall (FindByIdRequest "1698f1d3-be98-4c51-9fd8-6bfedcbd59b7"
                       true true [])], []).
Proof.
  intros pendingLookup.
  refine (proj2 (orcid_link_waits_for_lookup pendingLookup
                   ownedItem ""
                   (mkMetadataValue "Doe, Jane"
                      (Some "1698f1d3-be98-4c51-9fd8-6bfedcbd59b7"))
                   "1698f1d3-be98-4c51-9fd8-6bfedcbd59b7" eq_refl eq_refl _)).
  intros r ->%list_elem_of_singleton. reflexivity.
Defined.

(** ** The related item *)

(** [findRelatedItemId] asks for the item only when the profile does not carry
    it: then with one [findByHref] of the item link, not from the cache.  Its
    one answer comes from the first completed response: the id of the item
    when that response succeeded with a payload, [null] otherwise. *)
Theorem findRelatedItemId_first_completed
    (environment : Environment) (services : Services)
    (researcherProfile : LinkedResearcherProfile)
    (pending later : list (RemoteData Item)) (itemRD : RemoteData Item) :
  let source :=
    match item researcherProfile with
    | Some item' => item'
    | None => itemService_findByHref (links_item_href researcherProfile) false
    end in
  source = pending ++ itemRD :: later →
  (∀ earlier, earlier ∈ pending → hasCompleted earlier = false) →
  hasCompleted itemRD = true →
  findRelatedItemId researcherProfile
  = (match item researcherProfile with
     | Some _ => []
     | None => [FindByHrefCall (links_item_href researcherProfile) false]
     end,
     [if hasSucceeded itemRD then item_id <$> payload itemRD else None]).
Proof.
  intros source Hsource Hpending Hcompleted.
  unfold findRelatedItemId, call_findByHref.
  assert (Hid : (if hasSucceeded itemRD && bool_decide (is_Some (payload itemRD))
                 then item_id <$> payload itemRD else None)
                = (if hasSucceeded itemRD then item_id <$> payload itemRD
                   else None)).
  { destruct (hasSucceeded itemRD); [| done].
    destruct (payload itemRD); [| done].
    by rewrite bool_decide_eq_true_2. }
  unfold source in Hsource.
  destruct (item researcherProfile) as [item' |]; cbn;
    rewrite Hsource, (getFirstCompleted_first _ _ _ Hpending Hcompleted);
    cbn; by rewrite Hid.
Qed.

Lemma findRelatedItemId_first_completed_witness :
  @findRelatedItemId sampleEnvironment sampleServices
    (mkLinkedResearcherProfile (mkResearcherProfile "profile-1")
       (Some [mkRemoteData false false false None;
              mkRemoteData true false true (Some ownedItem)])
       "https://rest.api/profiles/profile-1/item")
  = ([], [Some "item-1"]) ∧
  @findRelatedItemId sampleEnvironment sampleServices
    (mkLinkedResearcherProfile (mkResearcherProfile "profile-1") None
       "https://rest.api/profiles/profile-1/item")
  = ([FindByHrefCall "https://rest.api/profiles/profile-1/item" false],
     [None]).
Proof.
  split.
  - refine (findRelatedItemId_first_completed sampleEnvironment sampleServices
              (mkLinkedResearcherProfile (mkResearcherProfile "profile-1")
                 (Some [mkRemoteData false false false None;
                        mkRemoteData true false true (Some ownedItem)])
                 "https://rest.api/profiles/profile-1/item")
              [mkRemoteData false false false None] []
              (mkRemoteData true false true (Some ownedItem)) eq_refl _ eq_refl).
    intros earlier ->%list_elem_of_singleton. reflexivity.
  - refine (findRelatedItemId_first_completed sampleEnvironment sampleServices
              (mkLinkedResearcherProfile (mkResearcherProfile "profile-1") None
                 "https://rest.api/profiles/profile-1/item")
              [] [] (mkRemoteData true true false None) eq_refl _ eq_refl).
    by intros earlier ?%elem_of_nil.
Defined.

(** ** Configuration *)

(** When the lookup of [orcid.disconnection.allowed-users] completes without
    success, both checks answer [false], once, after that one lookup; the
    payload is not read. *)
Theorem disconnection_checks_false_on_failed_lookup
    (environment : Environment) (services : Services)
    (pending later : list (RemoteData ConfigurationProperty))
    (propertyRD : RemoteData ConfigurationProperty) :
  configurationService_findByPropertyName "orcid.disconnection.allowed-users"
  = pending ++ propertyRD :: later →
  (∀ earlier, earlier ∈ pending → hasCompleted earlier = false) →
  hasCompleted propertyRD = true →
  hasSucceeded propertyRD = false →
  onlyAdminCanDisconnectProfileFromOrcid
  = ([FindByPropertyNameCall "orcid.disconnection.allowed-users"],
     [Returns false]) ∧
  ownerCanDisconnectProfileFromOrcid
  = ([FindByPropertyNameCall "orcid.disconnection.allowed-users"],
     [Returns false]).
Proof.
  intros Hresponses Hpending Hcompleted Hfailed.
  unfold onlyAdminCanDisconnectProfileFromOrcid,
    ownerCanDisconnectProfileFromOrcid,
    getOrcidDisconnectionAllowedUsersConfiguration, call_findByPropertyName.
  cbn. rewrite Hresponses, (getFirstCompleted_first _ _ _ Hpending Hcompleted).
  cbn. unfold allowsMode. by rewrite Hfailed.
Qed.

Lemma disconnection_checks_false_on_failed_lookup_witness :
  @onlyAdminCanDisconnectProfileFromOrcid sampleEnvironment sampleServices
  = ([FindByPropertyNameCall "orcid.disconnection.allowed-users"],
     [Returns false]).
Proof.
  refine (proj1 (disconnection_checks_false_on_failed_lookup
                   sampleEnvironment sampleServices [] []
                   (mkRemoteData true true false None) eq_refl _ eq_refl
                   eq_refl)).
  by intros earlier ?%elem_of_nil.
Defined.

(** The two checks read the configured values alike and differ in the mode
    they look for only: after a successful lookup with a payload, only-admin
    holds exactly when some value is [only_admin] once lower-cased, and
    owner-can-disconnect exactly when some value is [admin_and_owner] once
    lower-cased.  Nothing keeps both from holding at once. *)
Theorem disconnection_checks_on_successful_lookup
    (environment : Environment) (services : Services)
    (pending later : list (RemoteData ConfigurationProperty))
    (propertyRD : RemoteData ConfigurationProperty)
    (property : ConfigurationProperty) :
  configurationService_findByPropertyName "orcid.disconnection.allowed-users"
  = pending ++ propertyRD :: later →
  (∀ earlier, earlier ∈ pending → hasCompleted earlier = false) →
  hasCompleted propertyRD = true →
  hasSucceeded propertyRD = true →
  payload propertyRD = Some property →
  ∃ onlyAdmin ownerToo,
    onlyAdminCanDisconnectProfileFromOrcid.2 = [Returns onlyAdmin] ∧
    ownerCanDisconnectProfileFromOrcid.2 = [Returns ownerToo] ∧
    (onlyAdmin = true ↔
     ∃ v, v ∈ values property ∧ toLowerCase v = "only_admin") ∧
    (ownerToo = true ↔
     ∃ v, v ∈ values property ∧ toLowerCase v = "admin_and_owner").
Proof.
  intros Hresponses Hpending Hcompleted Hsucceeded Hpayload.
  exists (includes (toLowerCase <$> values property) "only_admin"),
    (includes (toLowerCase <$> values property) "admin_and_owner").
  unfold onlyAdminCanDisconnectProfileFromOrcid,
    ownerCanDisconnectProfileFromOrcid,
    getOrcidDisconnectionAllowedUsersConfiguration, call_findByPropertyName.
  cbn. rewrite Hresponses, (getFirstCompleted_first _ _ _ Hpending Hcompleted).
  cbn. unfold allowsMode. rewrite Hsucceeded, Hpayload.
  split; [done |]. split; [done |].
  unfold includes.
  split; rewrite List.existsb_exists; split.
  all: try (intros (lower & Hin & Heq);
            apply String.eqb_eq in Heq; subst lower;
            apply list_elem_of_In, list_elem_of_fmap in Hin
              as (v & Hv & Hin); by exists v).
  all: intros (v & Hin & Hv); exists (toLowerCase v); split;
    [apply list_elem_of_In, list_elem_of_fmap; by exists v
    | rewrite Hv; apply String.eqb_refl].
Qed.

Lemma disconnection_checks_on_successful_lookup_witness :
  let both : Services :=
    {| profiles := failedLookup;
       dataService_findById_undefined := [];
       dataService_patch _ _ := [];
       configurationService_findByPropertyName _ :=
         [mkRemoteData true false true
            (Some (mkConfigurationProperty ["only_admin"; "admin_and_owner"]))];
       itemService_findByHref _ _ := [] |} in
  (@onlyAdminCanDisconnectProfileFromOrcid sampleEnvironment both).2
  = [Returns true] ∧
  (@ownerCanDisconnectProfileFromOrcid sampleEnvironment both).2
  = [Returns true].
Proof.
  intros both.
  destruct (disconnection_checks_on_successful_lookup sampleEnvironment both
              [] []
              (mkRemoteData true false true
                 (Some (mkConfigurationProperty
                          ["only_admin"; "admin_and_owner"])))
              (mkConfigurationProperty ["only_admin"; "admin_and_owner"])
              eq_refl)
    as (onlyAdmin & ownerToo & Honly & Howner & HonlyIff & HownerIff);
    try reflexivity.
  - by intros earlier ?%elem_of_nil.
  - rewrite Honly, Howner.
    replace onlyAdmin with true; [replace ownerToo with true; [done |] |];
      symmetry.
    + apply HownerIff. exists "admin_and_owner". split; [| reflexivity].
      apply list_elem_of_further, list_elem_of_here.
    + apply HonlyIff. exists "only_admin". split; [| reflexivity].
      apply list_elem_of_here.
Defined.

(** The authorization scopes: none for an item that is [null]; from the
    configuration, the values of [orcid.scope] after a successful lookup and
    the empty list, not an error, after a failed one. *)
Theorem authorization_scopes_default_to_none
    (environment : Environment) (services : Services)
    (pending later : list (RemoteData ConfigurationProperty))
    (propertyRD : RemoteData ConfigurationProperty) :
  configurationService_findByPropertyName "orcid.scope"
  = pending ++ propertyRD :: later →
  (∀ earlier, earlier ∈ pending → hasCompleted earlier = false) →
  hasCompleted propertyRD = true →
  getOrcidAuthorizationScopesByItem None = [] ∧
  getOrcidAuthorizationScopes.1 = [FindByPropertyNameCall "orcid.scope"] ∧
  (hasSucceeded propertyRD = false →
   getOrcidAuthorizationScopes.2 = [Returns []]) ∧
  (∀ property,
     hasSucceeded propertyRD = true →
     payload propertyRD = Some property →
     getOrcidAuthorizationScopes.2 = [Returns (values property)]).
Proof.
  intros Hresponses Hpending Hcompleted.
  split; [done |]. split; [done |].
  unfold getOrcidAuthorizationScopes, call_findByPropertyName.
  cbn. rewrite Hresponses, (getFirstCompleted_first _ _ _ Hpending Hcompleted).
  cbn. split.
  - by intros ->.
  - by intros property -> ->.
Qed.

Lemma authorization_scopes_default_to_none_witness :
  (@getOrcidAuthorizationScopes sampleEnvironment sampleServices).2
  = [Returns ["/authenticate"; "/read-limited"]].
Proof.
  destruct (authorization_scopes_default_to_none sampleEnvironment
              sampleServices [] []
              (mkRemoteData true false true
                 (Some (mkConfigurationProperty
                          ["/authenticate"; "/read-limited"])))
              eq_refl) as (_ & _ & _ & Hvalues).
  - by intros earlier ?%elem_of_nil.
  - reflexivity.
  - exact (Hvalues _ eq_refl eq_refl).
Defined.

(** ** The ORCID authorize url *)

Lemma beforeQuestionMark_query (path query : string) :
  "?"%char ∉ String.list_ascii_of_string path →
  beforeQuestionMark (path +:+ "?" +:+ query) = path.
Proof.
  induction path as [| c path IH]; intros Hpath.
  - reflexivity.
  - change (beforeQuestionMark (String c (path +:+ "?" +:+ query))
            = String c path).
    cbn [beforeQuestionMark].
    destruct (Ascii.eqb_spec c "?") as [-> | _].
    + exfalso. apply Hpath. cbn. apply list_elem_of_here.
    + f_equal. apply IH. intros Hin. apply Hpath. cbn.
      by apply list_elem_of_further.
Qed.

Lemma beforeQuestionMark_plain (path : string) :
  "?"%char ∉ String.list_ascii_of_string path →
  beforeQuestionMark path = path.
Proof.
  induction path as [| c path IH]; intros Hpath; [done |].
  cbn [beforeQuestionMark].
  destruct (Ascii.eqb_spec c "?") as [-> | _].
  - exfalso. apply Hpath. cbn. apply list_elem_of_here.
  - f_equal. apply IH. intros Hin. apply Hpath. cbn.
    by apply list_elem_of_further.
Qed.

Section AuthorizeUrl.

Context `{environment : Environment} `{services : Services}.

Lemma getFirstSucceeded_elem {T : Type} (source : list (RemoteData T))
    (value : option T) :
  value ∈ getFirstSucceededRemoteDataPayload source →
  ∃ r, r ∈ source ∧ hasSucceeded r = true.
Proof.
  unfold getFirstSucceededRemoteDataPayload.
  destruct (List.find hasSucceeded source) as [r |] eqn:Hfind; cbn.
  - intros _. exists r. apply List.find_some in Hfind as [Hin Hr].
    by rewrite list_elem_of_In.
  - by intros ?%elem_of_nil.
Qed.

Lemma getFirstSucceeded_length {T : Type} (source : list (RemoteData T)) :
  (length (getFirstSucceededRemoteDataPayload source) ≤ 1)%nat.
Proof.
  unfold getFirstSucceededRemoteDataPayload.
  destruct (List.find hasSucceeded source); cbn; lia.
Qed.

Lemma combineLatest_length {A B C : Type} (a' : list A) (b' : list B)
    (c' : list C) :
  (length a' ≤ 1)%nat → (length b' ≤ 1)%nat → (length c' ≤ 1)%nat →
  (length (combineLatest a' b' c') ≤ 1)%nat.
Proof.
  destruct a' as [| a [| ? ?]], b' as [| b [| ? ?]], c' as [| c [| ? ?]];
    cbn; lia.
Qed.

Lemma combineLatest_elem {A B C : Type} (a' : list A) (b' : list B)
    (c' : list C) (abc : A * B * C) :
  abc ∈ combineLatest a' b' c' →
  abc.1.1 ∈ a' ∧ abc.1.2 ∈ b' ∧ abc.2 ∈ c'.
Proof.
  unfold combineLatest.
  intros (a & Hin & Ha)%list_elem_of_bind.
  apply list_elem_of_bind in Hin as (b & Hin & Hb).
  apply list_elem_of_bind in Hin as (c & Hin & Hc).
  apply list_elem_of_singleton in Hin as ->. done.
Qed.

End AuthorizeUrl.

(** The query string of the current route never reaches the authorize url:
    the redirect uri is built from the route up to its first question mark. *)
Theorem authorize_url_ignores_route_query
    (environment : Environment) (services : Services)
    (origin path query : string) (profile : Item) :
  "?"%char ∉ String.list_ascii_of_string path →
  getOrcidAuthorizeUrl origin (path +:+ "?" +:+ query) profile
  = getOrcidAuthorizeUrl origin path profile.
Proof.
  intros Hpath. unfold getOrcidAuthorizeUrl, authorizeUrlOf.
  by rewrite beforeQuestionMark_query, beforeQuestionMark_plain.
Qed.

Lemma authorize_url_ignores_route_query_witness :
  @getOrcidAuthorizeUrl sampleEnvironment sampleServices
    "https://demo.dspace.org" "/home?tab=orcid&x=1" ownedItem
  = @getOrcidAuthorizeUrl sampleEnvironment sampleServices
      "https://demo.dspace.org" "/home" ownedItem.
Proof.
  refine (authorize_url_ignores_route_query sampleEnvironment sampleServices
            "https://demo.dspace.org" "/home" "tab=orcid&x=1" ownedItem _).
  cbn. intros Hin.
  repeat (apply elem_of_cons in Hin as [Hin | Hin]; [discriminate Hin |]).
  by apply elem_of_nil in Hin.
Defined.

(** [getOrcidAuthorizeUrl] looks up the three ORCID properties, in the order
    authorize url, client id, scope, and emits at most one url; it emits none
    unless each of the three lookups has a response that succeeded. *)
Theorem authorize_url_needs_three_properties
    (environment : Environment) (services : Services)
    (origin routerUrl : string) (profile : Item) (url : Outcome string) :
  let names :=
    ["orcid.authorize-url"; "orcid.application-client-id"; "orcid.scope"] in
  (getOrcidAuthorizeUrl origin routerUrl profile).1
  = FindByPropertyNameCall <$> names ∧
  (length (getOrcidAuthorizeUrl origin routerUrl profile).2 ≤ 1)%nat ∧
  (url ∈ (getOrcidAuthorizeUrl origin routerUrl profile).2 →
   ∀ name, name ∈ names →
     ∃ r, r ∈ configurationService_findByPropertyName name ∧
          hasSucceeded r = true).
Proof.
  intros names. split; [done |]. split.
  - unfold getOrcidAuthorizeUrl, call_findByPropertyName. cbn.
    rewrite length_fmap.
    apply combineLatest_length; apply getFirstSucceeded_length.
  - unfold getOrcidAuthorizeUrl, call_findByPropertyName. cbn.
    intros (abc & _ & Hin)%list_elem_of_fmap.
    apply combineLatest_elem in Hin as (Ha & Hb & Hc).
    intros name Hname.
    repeat (apply elem_of_cons in Hname as [-> | Hname]);
      try (by eapply getFirstSucceeded_elem).
    by apply elem_of_nil in Hname.
Qed.

Lemma authorize_url_needs_three_properties_witness :
  ∃ r, r ∈ @configurationService_findByPropertyName sampleServices "orcid.scope"
       ∧ @hasSucceeded sampleEnvironment _ r = true.
Proof.
  destruct (authorize_url_needs_three_properties sampleEnvironment
              sampleServices "https://demo.dspace.org" "/home" ownedItem
              (Returns ("https://orcid.org/oauth/authorize?client_id=APP-1"
                        +:+ "&redirect_uri=https://demo.dspace.org//home"
                        +:+ "&response_type=code&scope=/authenticate /read-limited")))
    as (_ & _ & Hneeds).
  apply Hneeds.
  - apply list_elem_of_singleton. reflexivity.
  - do 2 apply list_elem_of_further. apply list_elem_of_here.
Defined.

(** The url that is emitted once the three lookups have succeeded with a
    payload: the first authorize url, the first client id, the redirect uri
    and the scopes separated by spaces.  A property without values puts the
    text [undefined] in the place of its first value. *)
Theorem authorize_url_shape
    (environment : Environment) (services : Services)
    (origin routerUrl : string) (profile : Item)
    (authorizeRD clientRD scopeRD : RemoteData ConfigurationProperty)
    (authorizeUrl clientId scopes : ConfigurationProperty) :
  List.find hasSucceeded
    (configurationService_findByPropertyName "orcid.authorize-url")
  = Some authorizeRD →
  List.find hasSucceeded
    (configurationService_findByPropertyName "orcid.application-client-id")
  = Some clientRD →
  List.find hasSucceeded
    (configurationService_findByPropertyName "orcid.scope")
  = Some scopeRD →
  payload authorizeRD = Some authorizeUrl →
  payload clientRD = Some clientId →
  payload scopeRD = Some scopes →
  (getOrcidAuthorizeUrl origin routerUrl profile).2
  = [Returns
       (default "undefined" (head (values authorizeUrl)) +:+ "?client_id=" +:+
        default "undefined" (head (values clientId)) +:+ "&redirect_uri=" +:+
        urlCombiner origin (encodeURIComponent (beforeQuestionMark routerUrl))
        +:+ "&response_type=code&scope=" +:+
        String.concat " " (values scopes))].
Proof.
  intros Ha Hc Hs Hpa Hpc Hps.
  unfold getOrcidAuthorizeUrl, call_findByPropertyName,
    getFirstSucceededRemoteDataPayload. cbn.
  rewrite Ha, Hc, Hs. cbn. by rewrite Hpa, Hpc, Hps.
Qed.

Lemma authorize_url_shape_witness :
  let unset : Services :=
    {| profiles := failedLookup;
       dataService_findById_undefined := [];
       dataService_patch _ _ := [];
       configurationService_findByPropertyName name :=
         [mkRemoteData true false true
            (Some (mkConfigurationProperty
                     (if String.eqb name "orcid.scope"
                      then ["/authenticate"; "/read-limited"] else [])))];
       itemService_findByHref _ _ := [] |} in
  (@getOrcidAuthorizeUrl sampleEnvironment unset
     "https://demo.dspace.org" "/home?tab=orcid" ownedItem).2
  = [Returns ("undefined?client_id=undefined"
              +:+ "&redirect_uri=https://demo.dspace.org//home"
              +:+ "&response_type=code&scope=/authenticate /read-limited")].
Proof.
  intros unset.
  refine (authorize_url_shape sampleEnvironment unset
            "https://demo.dspace.org" "/home?tab=orcid" ownedItem
            _ _ _ (mkConfigurationProperty [])
            (mkConfigurationProperty [])
            (mkConfigurationProperty ["/authenticate"; "/read-limited"])
            eq_refl eq_refl eq_refl eq_refl eq_refl eq_refl).
Defined.

End ResearcherProfileMoreFacts.

(* ===================================================================== *)
(** * Further theorems: profiles from an external source *)
(* ===================================================================== *)

Module ResearcherProfileExternalFacts.
Import ResearcherProfile ResearcherProfileExternal.

Lemma findHasValue_first (undefineds later : list (option string))
    (href : string) :
  (∀ h, h ∈ undefineds → h = None) →
  findHasValue (undefineds ++ Some href :: later) = [href].
Proof.
  intros Hundefined. unfold findHasValue.
  induction undefineds as [| h undefineds IH]; cbn; [done |].
  rewrite (Hundefined h) by apply list_elem_of_here. cbn.
  apply IH. intros h' Hh'. by apply Hundefined, list_elem_of_further.
Qed.

Lemma findHasValue_none (source : list (option string)) :
  (∀ h, h ∈ source → h = None) → findHasValue source = [].
Proof.
  intros Hundefined. unfold findHasValue.
  induction source as [| h source IH]; cbn; [done |].
  rewrite (Hundefined h) by apply list_elem_of_here. cbn.
  apply IH. intros h' Hh'. by apply Hundefined, list_elem_of_further.
Qed.

(** [createFromExternalSource] sends one POST, to the first endpoint href that
    has a value (with the item link followed), carrying the source uri as a
    uri list; the request it sends and the observable it returns go by the
    same request id.  While no endpoint href has a value nothing is sent. *)
Theorem createFromExternalSource_sends_one_post
    (requestServices : RequestServices) (sourceUri : string) :
  (createFromExternalSource sourceUri).2
  = buildFromRequestUUID generateRequestId [followLink "item"] ∧
  (∀ undefineds later endpoint,
     halService_getEndpoint getLinkPath
     = undefineds ++ Some endpoint :: later →
     (∀ h, h ∈ undefineds → h = None) →
     (createFromExternalSource sourceUri).1
     = [ {| uuid := generateRequestId;
            href := buildHrefWithParams endpoint [] [followLink "item"];
            body := sourceUri;
            headers := [("Content-Type", "text/uri-list")] |} ]) ∧
  ((∀ h, h ∈ halService_getEndpoint getLinkPath → h = None) →
   (createFromExternalSource sourceUri).1 = []).
Proof.
  split; [done |]. unfold createFromExternalSource. cbn [fst]. split.
  - intros undefineds later endpoint -> Hundefined.
    by rewrite findHasValue_first.
  - intros Hundefined. by rewrite findHasValue_none.
Qed.

Lemma createFromExternalSource_sends_one_post_witness :
  (@createFromExternalSource sampleRequestServices "https://orcid.org/0000-1").1
  = [ {| uuid := "request-1";
         href := "https://rest.api/profiles?embed=item";
         body := "https://orcid.org/0000-1";
         headers := [("Content-Type", "text/uri-list")] |} ].
Proof.
  destruct (createFromExternalSource_sends_one_post sampleRequestServices
              "https://orcid.org/0000-1") as (_ & Hsent & _).
  refine (Hsent [None] [Some "https://rest.api/other"]
            "https://rest.api/profiles" eq_refl _).
  by intros h ->%list_elem_of_singleton.
Defined.

End ResearcherProfileExternalFacts.
